(** * Ephemeris Time of Day: a shallow embedding of [ephem_tod.py]

    The rule computes, from DateTime Items tagged with [etod] metadata, the
    current time-of-day period and schedules one timer per future
    transition.  The embedding threads an explicit [World] (item registry,
    metadata, timer registry, clock, and the trace of calls made to the
    host) through a small state-and-exception monad. *)

From Stdlib Require Import ZArith List String Bool Lia.
Import ListNotations.
Open Scope string_scope.
Open Scope list_scope.
Open Scope Z_scope.

(** ** java.time

    A date-time is a point of one time line, in nanoseconds; on that line
    every calendar day has [NANOS_PER_DAY] nanoseconds.  This is the
    arithmetic of [LocalDateTime], and [create_timers] with the helpers
    of [community.time_utils] reads the instants it compares on it.  The
    reload time of [ephem_tod] sets fields of the local time and adds a day:
    there the local time is resolved through the rules of the zone, see
    [Zone] below. *)
Module Time.

Definition ZonedDateTime := Z.

Definition NANOS_PER_SECOND : Z := 1000000000.
Definition NANOS_PER_MINUTE : Z := 60 * NANOS_PER_SECOND.
Definition NANOS_PER_HOUR : Z := 60 * NANOS_PER_MINUTE.
Definition NANOS_PER_DAY : Z := 24 * NANOS_PER_HOUR.

Definition toLocalDate (t : ZonedDateTime) : Z := t / NANOS_PER_DAY.
Definition toLocalTime (t : ZonedDateTime) : Z := t mod NANOS_PER_DAY.
Definition atDate (d tod : Z) : ZonedDateTime := d * NANOS_PER_DAY + tod.

Definition getHour (t : ZonedDateTime) : Z := toLocalTime t / NANOS_PER_HOUR.
Definition getMinute (t : ZonedDateTime) : Z :=
  (toLocalTime t mod NANOS_PER_HOUR) / NANOS_PER_MINUTE.
Definition getSecond (t : ZonedDateTime) : Z :=
  (toLocalTime t mod NANOS_PER_MINUTE) / NANOS_PER_SECOND.
Definition getNano (t : ZonedDateTime) : Z := toLocalTime t mod NANOS_PER_SECOND.

Definition withHour (h : Z) (t : ZonedDateTime) : ZonedDateTime :=
  t + (h - getHour t) * NANOS_PER_HOUR.
Definition withMinute (m : Z) (t : ZonedDateTime) : ZonedDateTime :=
  t + (m - getMinute t) * NANOS_PER_MINUTE.
Definition withSecond (s : Z) (t : ZonedDateTime) : ZonedDateTime :=
  t + (s - getSecond t) * NANOS_PER_SECOND.
Definition withNano (n : Z) (t : ZonedDateTime) : ZonedDateTime :=
  t + (n - getNano t).

Definition isBefore (a b : ZonedDateTime) : bool := a <? b.
Definition isAfter (a b : ZonedDateTime) : bool := b <? a.
Definition minusDays (t : ZonedDateTime) (n : Z) : ZonedDateTime :=
  t - n * NANOS_PER_DAY.
Definition plusDays (t : ZonedDateTime) (n : Z) : ZonedDateTime :=
  t + n * NANOS_PER_DAY.

(** A wall-clock time of day [h:m:s], as nanoseconds since midnight. *)
Definition hms (h m s : Z) : Z :=
  h * NANOS_PER_HOUR + m * NANOS_PER_MINUTE + s * NANOS_PER_SECOND.

End Time.
Import Time.

(** ** java.time.zone.ZoneRules and the resolution of local times

    The offset of a zone is what is added to an instant to read its local
    date-time.  At a transition the offset changes: when it grows, the local
    times between the old and the new reading do not exist (a gap); when it
    shrinks, they occur twice (an overlap). *)
Module Zone.

(** The offset in force before the first transition, and the transitions
    in increasing order of instant, each with the offset in force from that
    instant on.  Offsets are in nanoseconds. *)
Record ZoneRules := mkZone {
  initial : Z;
  transitions : list (ZonedDateTime * Z)
}.

Definition UTC : ZoneRules := mkZone 0 [].

Fixpoint offset_from (o : Z) (trs : list (ZonedDateTime * Z))
    (t : ZonedDateTime) : Z :=
  match trs with
  | [] => o
  | (at_, o') :: rest => if t <? at_ then o else offset_from o' rest t
  end.

(** [ZoneRules.getOffset(Instant)] *)
Definition getOffset (z : ZoneRules) (t : ZonedDateTime) : Z :=
  offset_from (initial z) (transitions z) t.

(** [ZonedDateTime.toLocalDateTime()] *)
Definition toLocalDateTime (z : ZoneRules) (t : ZonedDateTime) : Z :=
  t + getOffset z t.

Definition toLocalDate (z : ZoneRules) (t : ZonedDateTime) : Z :=
  Time.toLocalDate (toLocalDateTime z t).
Definition toLocalTime (z : ZoneRules) (t : ZonedDateTime) : Z :=
  Time.toLocalTime (toLocalDateTime z t).

Fixpoint ofLocal_from (o : Z) (trs : list (ZonedDateTime * Z))
    (ldt preferred : Z) : ZonedDateTime :=
  match trs with
  | [] => ldt - o
  | (at_, o') :: rest =>
      if ldt <? at_ + Z.min o o' then ldt - o
      else if ldt <? at_ + Z.max o o' then
        if o <? o' then
          (* gap: the local time is moved forward by the length of the gap
             and takes the later offset *)
          (ldt + (o' - o)) - o'
        else
          (* overlap: the valid offsets are the earlier and the later one;
             the preferred offset is kept if it is one of them, else the
             earlier offset is taken *)
          if preferred =? o' then ldt - o' else ldt - o
      else ofLocal_from o' rest ldt preferred
  end.

(** [ZonedDateTime.ofLocal(localDateTime, zone, preferredOffset)], as an
    instant. *)
Definition ofLocal (z : ZoneRules) (ldt preferred : Z) : ZonedDateTime :=
  ofLocal_from (initial z) (transitions z) ldt preferred.

(** [ZonedDateTime.resolveLocal]: the methods that change the local
    date-time resolve the result in the zone, preferring the offset the
    receiver has. *)
Definition resolveLocal (z : ZoneRules) (t : ZonedDateTime) (ldt : Z)
  : ZonedDateTime :=
  ofLocal z ldt (getOffset z t).

Definition withHour (z : ZoneRules) (h : Z) (t : ZonedDateTime) : ZonedDateTime :=
  resolveLocal z t (Time.withHour h (toLocalDateTime z t)).
Definition withMinute (z : ZoneRules) (m : Z) (t : ZonedDateTime) : ZonedDateTime :=
  resolveLocal z t (Time.withMinute m (toLocalDateTime z t)).
Definition withSecond (z : ZoneRules) (s : Z) (t : ZonedDateTime) : ZonedDateTime :=
  resolveLocal z t (Time.withSecond s (toLocalDateTime z t)).
Definition withNano (z : ZoneRules) (n : Z) (t : ZonedDateTime) : ZonedDateTime :=
  resolveLocal z t (Time.withNano n (toLocalDateTime z t)).
Definition plusDays (z : ZoneRules) (t : ZonedDateTime) (n : Z) : ZonedDateTime :=
  resolveLocal z t (Time.plusDays (toLocalDateTime z t) n).

(** The local date-time [ldt] exists in the zone: no transition skips it,
    so resolving it gives an instant that reads [ldt]. *)
Definition valid (z : ZoneRules) (ldt : Z) : Prop :=
  forall preferred, toLocalDateTime z (ofLocal z ldt preferred) = ldt.

(** The zone keeps the offset [o] over the instants from [lo] to [hi]:
    every instant there has it, and a local time that reads an instant
    there under [o] resolves to that instant. *)
Definition steady (z : ZoneRules) (o lo hi : Z) : Prop :=
  (forall t, lo <= t <= hi -> getOffset z t = o) /\
  (forall ldt preferred, lo <= ldt - o <= hi -> ofLocal z ldt preferred = ldt - o).

End Zone.

(** ** Values of the scripting host *)

Inductive UnDefType := NULL | UNDEF.

(** The dynamically typed values the rule handles: Python [None], strings
    (a [str] or a [StringType] state), the undefined states, and
    [DateTimeType] states. *)
Inductive Value :=
| VNone
| VStr (s : string)
| VUnDef (u : UnDefType)
| VDateTime (t : ZonedDateTime).

Definition Value_eq_dec (a b : Value) : {a = b} + {a <> b}.
Proof.
  decide equality.
  - apply string_dec.
  - decide equality.
  - apply Z.eq_dec.
Defined.

Definition value_eqb (a b : Value) : bool :=
  if Value_eq_dec a b then true else false.

Definition is_undef (v : Value) : bool :=
  match v with VUnDef _ => true | _ => false end.

(** Item metadata of one namespace: a value and a configuration mapping. *)
Record Metadata := mkMetadata {
  value : string;
  configuration : list (string * string)
}.

(** What a timer runs when it fires: the two lambdas of the source. *)
Inductive Callback :=
| CbTransition (st : Value)   (* lambda st=state: etod_transition(st) *)
| CbReload.                   (* lambda: ephem_tod(None) *)

Inductive Level := DEBUG | INFO | WARN | ERROR.

(** Calls made to the host, in program order. *)
Inductive Event :=
| Log (lvl : Level) (msg : string)
| SendCommand (item : string) (cmd : Value)
| PostUpdate (item : string) (v : Value)
| Sleep (secs : Z)
| TimerCheck (key : Value) (when : ZonedDateTime) (f : Callback)
| TimerCancel (key : Value)
| TimerCancelAll.

Definition is_log (e : Event) : bool :=
  match e with Log _ _ => true | _ => false end.

Definition is_timer_event (e : Event) : bool :=
  match e with
  | TimerCheck _ _ _ | TimerCancel _ | TimerCancelAll => true
  | _ => false
  end.

(** ** Association lists (Python dicts with their iteration order) *)

Fixpoint assoc {V} (k : string) (l : list (string * V)) : option V :=
  match l with
  | [] => None
  | (k', v) :: l' => if String.eqb k k' then Some v else assoc k l'
  end.

Definition keys {K V} (l : list (K * V)) : list K := map fst l.

Definition mem (k : string) (l : list string) : bool :=
  existsb (String.eqb k) l.

(** ** community.timer_mgr.TimerMgr *)
Module TimerMgr.

Definition Timer : Type := (ZonedDateTime * Callback)%type.
Definition t : Type := list (Value * Timer).

Definition lookup (k : Value) (r : t) : option Timer :=
  match find (fun e => value_eqb k (fst e)) r with
  | Some e => Some (snd e)
  | None => None
  end.

(** Modelled from the spec: [TimerMgr.cancel] is not under src/.
    Cancelling a named timer removes it; cancelling a name that does not
    exist is a no-op. *)
Definition cancel (k : Value) (r : t) : t :=
  filter (fun e => negb (value_eqb k (fst e))) r.

(** Modelled from the spec: [TimerMgr.cancel_all] is not under src/.
    It leaves zero active timers, however many were present. *)
Definition cancel_all (r : t) : t := [].

(** Modelled from the spec: [TimerMgr.check] is not under src/.
    Creates the named timer; a timer of the same name is superseded, so
    at most one timer is live per name. *)
Definition check (k : Value) (when : ZonedDateTime) (f : Callback) (r : t) : t :=
  cancel k r ++ [(k, (when, f))].

End TimerMgr.

(** ** The world the rule runs in *)

Record World := mkWorld {
  items : list (string * Value);         (* the item registry: name, state *)
  metadata : list (string * Metadata);   (* metadata of namespace etod *)
  timers : TimerMgr.t;                   (* timers = TimerMgr() *)
  clock : ZonedDateTime;                 (* what ZonedDateTime.now() reads *)
  trace : list Event                     (* calls made so far *)
}.

Definition emit (e : Event) (w : World) : World :=
  mkWorld (items w) (metadata w) (timers w) (clock w) (trace w ++ [e]).

Definition set_timers (r : TimerMgr.t) (w : World) : World :=
  mkWorld (items w) (metadata w) r (clock w) (trace w).

(** ** The calendar and the rest of the host *)

Record Host := mkHost {
  isWeekend : bool;                          (* Ephemeris.isWeekend() *)
  isBankHoliday : bool;                      (* Ephemeris.isBankHoliday() *)
  isInDayset : option string -> bool;        (* Ephemeris.isInDayset(name) *)
  isBankHolidayIn : option string -> bool;   (* Ephemeris.isBankHoliday(0, file) *)
  (* what the item_init rule has done to the item registry by the end of
     the five seconds the rule sleeps *)
  init_items : list (string * Value) -> list (string * Value);
  (* whether rules_utils.delete_rule succeeds *)
  delete_rule_ok : bool;
  (* the rules of the zone ZonedDateTime.now() reads the clock in *)
  zone : Zone.ZoneRules
}.

(** ** State and exceptions *)

Inductive Exn := KeyError | TypeError.

Inductive Res (A : Type) :=
| Ret (a : A)
| Raise (e : Exn).
Arguments Ret {A} a.
Arguments Raise {A} e.

Definition M (A : Type) : Type := World -> Res A * World.

Definition ret {A} (a : A) : M A := fun w => (Ret a, w).
Definition raise {A} (e : Exn) : M A := fun w => (Raise e, w).
Definition bind {A B} (m : M A) (k : A -> M B) : M B :=
  fun w => match m w with
           | (Ret a, w') => k a w'
           | (Raise e, w') => (Raise e, w')
           end.

Notation "x <- c1 ;; c2" := (bind c1 (fun x => c2))
  (at level 61, c1 at next level, right associativity).
Notation "c1 ;; c2" := (bind c1 (fun _ => c2))
  (at level 61, right associativity).

Definition get : M World := fun w => (Ret w, w).
Definition tell (e : Event) : M unit := fun w => (Ret tt, emit e w).
Definition log (lvl : Level) (msg : string) : M unit := tell (Log lvl msg).

(** The for loop over a list, threading the variables the body assigns. *)
Fixpoint for_each {A S} (l : list A) (body : A -> S -> M S) (s : S) : M S :=
  match l with
  | [] => ret s
  | x :: l' => s' <- body x s ;; for_each l' body s'
  end.

(** A list comprehension with a condition that may raise. *)
Fixpoint filterM {A} (p : A -> M bool) (l : list A) : M (list A) :=
  match l with
  | [] => ret []
  | x :: l' =>
      b <- p x ;;
      r <- filterM p l' ;;
      ret (if b then x :: r else r)
  end.

(** [core.log.log_traceback]: the decorated function returns what the body
    returns; an exception is logged and the call returns Python's [None]
    (here [dflt]). *)
Definition log_traceback {A} (dflt : A) (body : M A) : M A :=
  fun w => match body w with
           | (Ret a, w') => (Ret a, w')
           | (Raise _, w') =>
               (Ret dflt, emit (Log ERROR "Traceback (most recent call last)") w')
           end.

(** ** Host primitives *)

(** [items[name]] *)
Definition items_get (name : string) : M Value :=
  w <- get ;;
  match assoc name (items w) with
  | Some v => ret v
  | None => raise KeyError
  end.

(** [core.metadata.get_key_value(i, NAMESPACE, key)] *)
Definition get_key_value (w : World) (i key : string) : option string :=
  match assoc i (metadata w) with
  | Some md => assoc key (configuration md)
  | None => None
  end.

(** [core.metadata.get_value(i, NAMESPACE)] *)
Definition get_value (w : World) (i : string) : Value :=
  match assoc i (metadata w) with
  | Some md => VStr (value md)
  | None => VNone
  end.

Definition sendCommand (item : string) (cmd : Value) : M unit :=
  tell (SendCommand item cmd).
Definition postUpdate (item : string) (v : Value) : M unit :=
  tell (PostUpdate item v).

(** [core.utils.send_command_if_different]: commands the item only when its
    state differs from the new value. *)
Definition send_command_if_different (item : string) (new_value : Value) : M unit :=
  cur <- items_get item ;;
  if value_eqb cur new_value then ret tt else sendCommand item new_value.

Definition ZonedDateTime_now : M ZonedDateTime :=
  w <- get ;; ret (clock w).

(** [time.sleep]: the clock advances and the item_init rule has its effect
    on the registry. *)
Definition sleep (h : Host) (secs : Z) : M unit :=
  fun w => (Ret tt,
            mkWorld (init_items h (items w)) (metadata w) (timers w)
                    (clock w + secs * NANOS_PER_SECOND)
                    (trace w ++ [Sleep secs])).

Definition timers_check (k : Value) (when : ZonedDateTime) (f : Callback) : M unit :=
  fun w => (Ret tt, emit (TimerCheck k when f)
                      (set_timers (TimerMgr.check k when f (timers w)) w)).
Definition timers_cancel (k : Value) : M unit :=
  fun w => (Ret tt, emit (TimerCancel k)
                      (set_timers (TimerMgr.cancel k (timers w)) w)).
Definition timers_cancel_all : M unit :=
  fun w => (Ret tt, emit TimerCancelAll
                      (set_timers (TimerMgr.cancel_all (timers w)) w)).

(** Modelled from the spec: [community.time_utils.to_datetime] is not under
    src/.  It resolves a marker's stored timestamp; only a DateTime state
    has one. *)
Definition to_datetime (v : Value) : M ZonedDateTime :=
  match v with
  | VDateTime t => ret t
  | _ => raise TypeError
  end.

(** Modelled from the spec: [community.time_utils.to_today] is not under
    src/.  The result is today's date with the marker's time-of-day
    component. *)
Definition to_today (v : Value) : M ZonedDateTime :=
  t <- to_datetime v ;;
  now <- ZonedDateTime_now ;;
  ret (atDate (toLocalDate now) (toLocalTime t)).

(** ** Module constants *)

Definition ETOD_RELOAD_ITEM := "Reload_ETOD".
Definition ETOD_ITEM := "TimeOfDay".
Definition NAMESPACE := "etod".

(** ** get_times *)

(** The keys of the [start_times] dict. *)
Inductive DayType := default | weekday | weekend | dayset | holiday | custom.

Definition type_name (d : DayType) : string :=
  match d with
  | default => "default"
  | weekday => "weekday"
  | weekend => "weekend"
  | dayset => "dayset"
  | holiday => "holiday"
  | custom => "custom"
  end.

(** Position in the hierarchy of the docstring; larger wins. *)
Definition priority (d : DayType) : nat :=
  match d with
  | default => 0
  | weekday => 1
  | weekend => 2
  | dayset => 3
  | holiday => 4
  | custom => 5
  end%nat.

Definition cond (lst : list string) (c : string -> bool) : list string :=
  filter c lst.

Definition type_is (w : World) (ty : string) (i : string) : bool :=
  match get_key_value w i "type" with
  | Some s => String.eqb s ty
  | None => false
  end.

Definition types (w : World) (ty : string) : list string :=
  filter (type_is w ty) (keys (items w)).

Definition start_times (h : Host) (w : World) (d : DayType) : list string :=
  match d with
  | default => types w "default"
  | weekday => if negb (isWeekend h) then types w "weekday" else []
  | weekend => if isWeekend h then types w "weekend" else []
  | dayset => cond (types w "dayset")
                (fun i => isInDayset h (get_key_value w i "set"))
  | holiday => if isBankHoliday h then types w "holiday" else []
  | custom => cond (types w "custom")
                (fun i => isBankHolidayIn h (get_key_value w i "file"))
  end.

(** Truth value of a Python list. *)
Definition truthy {A} (l : list A) : bool :=
  match l with [] => false | _ => true end.

Definition choose_day_type (st : DayType -> list string) : option DayType :=
  if truthy (st custom) then Some custom
  else if truthy (st holiday) then Some holiday
  else if truthy (st dayset) then Some dayset
  else if truthy (st weekend) then Some weekend
  else if truthy (st weekday) then Some weekday
  else if truthy (st default) then Some default
  else None.

(** [start_times[day_type]]: no key is [None]. *)
Definition dict_get (st : DayType -> list string) (k : option DayType)
  : M (list string) :=
  match k with
  | Some d => ret (st d)
  | None => raise KeyError
  end.

Definition get_times_body (h : Host) : M (option (list string)) :=
  w <- get ;;
  let st := start_times h w in
  let day_type := choose_day_type st in
  _n <- dict_get st day_type ;;
  log INFO "Today is a {} day, there are {} time periods today." ;;
  match day_type with
  | Some _ => r <- dict_get st day_type ;; ret (Some r)
  | None => ret None
  end.

Definition get_times (h : Host) : M (option (list string)) :=
  log_traceback None (get_times_body h).

(** ** etod_transition *)

Definition etod_transition (state : Value) : M unit :=
  log_traceback tt
    (_cur <- items_get ETOD_ITEM ;;
     log INFO "Transitioning Time of Day from {} to {}" ;;
     sendCommand ETOD_ITEM state).

(** ** create_timers *)

(** One pass of the loop body over the marker [time]; [mr] is the pair
    [(most_recent_time, most_recent_state)] the body may reassign.  The
    update posted for a stale marker carries [DateTimeType(trigger_time)]. *)
Definition create_timers_iter (now : ZonedDateTime) (time : string)
    (mr : ZonedDateTime * Value) : M (ZonedDateTime * Value) :=
  v <- items_get time ;;
  item_time <- to_datetime v ;;
  v' <- items_get time ;;
  trigger_time <- to_today v' ;;
  (if isBefore item_time trigger_time then
     log DEBUG "Item {} is yesterday, updating to today" ;;
     postUpdate time (VDateTime trigger_time)
   else ret tt) ;;
  w <- get ;;
  let state := get_value w time in
  if isBefore trigger_time now && isAfter trigger_time (fst mr) then
    log DEBUG "NOW:    {} start time {} is in the past but after {}" ;;
    w' <- get ;;
    ret (trigger_time, get_value w' time)
  else if isAfter trigger_time now then
    log DEBUG "FUTURE: {} Scheduleing Timer for {}" ;;
    timers_check state trigger_time (CbTransition state) ;;
    ret mr
  else
    log DEBUG "PAST:   {} start time of {} is before now {} and before {}" ;;
    ret mr.

Definition create_timers_loop (now : ZonedDateTime) (start_times : list string)
    (mr : ZonedDateTime * Value) : M (ZonedDateTime * Value) :=
  for_each start_times (create_timers_iter now) mr.

Definition create_timers_body (start_times : list string) : M unit :=
  now <- ZonedDateTime_now ;;
  let most_recent_time := minusDays now 1 in
  most_recent_state <- items_get ETOD_ITEM ;;
  mr <- create_timers_loop now start_times (most_recent_time, most_recent_state) ;;
  log INFO "Created {} timers." ;;
  log INFO "The current time of day is {}" ;;
  send_command_if_different ETOD_ITEM (snd mr).

Definition create_timers (start_times : list string) : M unit :=
  log_traceback tt (create_timers_body start_times).

(** ** ephem_tod *)

(** [[i for i in start_times if isinstance(items[i], UnDefType)]] *)
Definition null_items (start_times : list string) : M (list string) :=
  filterM (fun i => v <- items_get i ;; ret (is_undef v)) start_times.

(** [now.withHour(0).withMinute(2).withSecond(0).withNano(0)] *)
Definition today_0002 (z : Zone.ZoneRules) (now : ZonedDateTime) : ZonedDateTime :=
  Zone.withNano z 0 (Zone.withSecond z 0 (Zone.withMinute z 2 (Zone.withHour z 0 now))).

Definition reload_time_of (z : Zone.ZoneRules) (now : ZonedDateTime)
  : ZonedDateTime :=
  let reload_time := today_0002 z now in
  if isBefore reload_time now then Zone.plusDays z reload_time 1 else reload_time.

Definition NO_START_TIMES := "No start times found! Cannot run the rule!".
Definition STILL_NULL :=
  "The following Items are still NULL/UNDEF, cannot create Time of Day timers: {}".

(** Lines 208-216: if any marker is NULL, kick off the init rule. *)
Definition kick_off_init (h : Host) (start_times : list string) : M unit :=
  nulls <- null_items start_times ;;
  w <- get ;;
  if truthy nulls && mem "InitItems" (keys (items w)) then
    log WARN "The following Items are are NULL/UNDEF, kicking off initialization using item_init: {}" ;;
    sendCommand "InitItems" (VStr "ON") ;;
    sleep h 5
  else ret tt.

(** Lines 226-237: cancel the existing timers, generate the timers for
    today, and create the timer that runs the rule again after midnight. *)
Definition schedule_all (z : Zone.ZoneRules) (start_times : list string)
  : M unit :=
  timers_cancel_all ;;
  create_timers start_times ;;
  now <- ZonedDateTime_now ;;
  let reload_time :=
    Zone.withNano z 0 (Zone.withSecond z 0 (Zone.withMinute z 2 (Zone.withHour z 0 now))) in
  reload_time <-
    (if isBefore reload_time now then
       let reload_time := Zone.plusDays z reload_time 1 in
       log INFO "Creating reload timer for {}" ;;
       ret reload_time
     else ret reload_time) ;;
  timers_check (VStr "etod_reload") reload_time CbReload.

Definition ephem_tod (h : Host) : M unit :=
  log INFO "Recalculating time of day" ;;
  start_times <- get_times h ;;
  match start_times with
  | Some ((_ :: _) as start_times) =>
      kick_off_init h start_times ;;
      nulls <- null_items start_times ;;
      if truthy nulls then
        log ERROR STILL_NULL
      else
        schedule_all (zone h) start_times
  | _ =>
      log ERROR NO_START_TIMES
  end.

(** What a timer does when it fires. *)
Definition fire (h : Host) (f : Callback) : M unit :=
  match f with
  | CbTransition st => etod_transition st
  | CbReload => ephem_tod h
  end.

(** ** check_config and load_etod *)

(** [cfg.configuration[key]] *)
Definition config_get (cfg : Metadata) (key : string) : M string :=
  match assoc key (configuration cfg) with
  | Some s => ret s
  | None => raise KeyError
  end.

Definition check_config (i : string) : M (option Metadata) :=
  log_traceback None
    (w <- get ;;
     match assoc i (metadata w) with
     | None =>
         log ERROR "Item {} does not have {} metadata" ;; ret None
     | Some cfg =>
         if String.eqb (value cfg) "" then
           log ERROR "Item {} does not have a value" ;; ret None
         else
           day_type <- config_get cfg "type" ;;
           if String.eqb day_type "" then
             log ERROR "Item {} does not have a type" ;; ret None
           else if String.eqb day_type "dayset" then
             s <- config_get cfg "set" ;;
             if String.eqb s "" then
               log ERROR "Item {} is of type dayset but doesn't have a set" ;;
               ret None
             else ret (Some cfg)
           else if String.eqb day_type "custom" then
             f <- config_get cfg "file" ;;
             if String.eqb f "" then
               log ERROR "Item {} is of type custom but does't have a file" ;;
               ret None
             else ret (Some cfg)
           else ret (Some cfg)
     end).

(** Modelled from the spec: [community.rules_utils.load_rule_with_metadata]
    is not under src/.  It runs the validator on the items that carry
    metadata of the namespace and returns the list of matched ids. *)
Definition load_rule_with_metadata : M (list string) :=
  w <- get ;;
  filterM (fun i => c <- check_config i ;;
                    ret (match c with Some _ => true | None => false end))
          (filter (fun i => match assoc i (metadata w) with
                            | Some _ => true
                            | None => false
                            end)
                  (keys (items w))).

(** [i in etod_items] for a timer key [i]. *)
Definition value_in (k : Value) (names : list string) : bool :=
  existsb (fun n => value_eqb k (VStr n)) names.

Definition load_etod (h : Host) : M unit :=
  log_traceback tt
    (if negb (delete_rule_ok h) then
       log ERROR "Failed to delete rule!"
     else
       etod_items <- load_rule_with_metadata ;;
       (if truthy etod_items then
          w <- get ;;
          for_each (filter (fun i => negb (value_in i etod_items)) (keys (timers w)))
                   (fun i _ => timers_cancel i) tt
        else ret tt) ;;
       ephem_tod h).

(** ** Running a computation *)

Definition result {A} (m : M A) (w : World) : Res A := fst (m w).
Definition exec {A} (m : M A) (w : World) : World := snd (m w).

(** The calls a run adds to the trace. *)
Definition emitted {A} (m : M A) (w : World) : list Event :=
  skipn (List.length (trace w)) (trace (exec m w)).

(** ** The loop of create_timers, read off as functions

    What one pass of the loop computes, as functions of the world it reads
    (items, metadata, clock) and of the loop variables. *)

(** The stored timestamp of a marker and its trigger time today. *)
Definition stored_time (w : World) (i : string) : ZonedDateTime :=
  match assoc i (items w) with
  | Some (VDateTime t) => t
  | _ => 0
  end.

Definition trigger_time (w : World) (i : string) : ZonedDateTime :=
  atDate (toLocalDate (clock w)) (toLocalTime (stored_time w i)).

Definition is_datetime (w : World) (i : string) : bool :=
  match assoc i (items w) with
  | Some (VDateTime _) => true
  | _ => false
  end.

(** The three branches of the loop body. *)
Inductive Branch := MostRecent | Future | Ignored.

Definition classify (now most_recent_time trigger : ZonedDateTime) : Branch :=
  if isBefore trigger now && isAfter trigger most_recent_time then MostRecent
  else if isAfter trigger now then Future
  else Ignored.

Definition correction_events (w : World) (i : string) : list Event :=
  if isBefore (stored_time w i) (trigger_time w i) then
    [Log DEBUG "Item {} is yesterday, updating to today";
     PostUpdate i (VDateTime (trigger_time w i))]
  else [].

Definition branch_events (w : World) (i : string) (b : Branch) : list Event :=
  match b with
  | MostRecent =>
      [Log DEBUG "NOW:    {} start time {} is in the past but after {}"]
  | Future =>
      [Log DEBUG "FUTURE: {} Scheduleing Timer for {}";
       TimerCheck (get_value w i) (trigger_time w i)
         (CbTransition (get_value w i))]
  | Ignored =>
      [Log DEBUG "PAST:   {} start time of {} is before now {} and before {}"]
  end.

Definition iter_branch (now : ZonedDateTime) (w : World) (i : string)
    (mr : ZonedDateTime * Value) : Branch :=
  classify now (fst mr) (trigger_time w i).

Definition iter_acc (now : ZonedDateTime) (w : World) (i : string)
    (mr : ZonedDateTime * Value) : ZonedDateTime * Value :=
  match iter_branch now w i mr with
  | MostRecent => (trigger_time w i, get_value w i)
  | _ => mr
  end.

Definition iter_events (now : ZonedDateTime) (w : World) (i : string)
    (mr : ZonedDateTime * Value) : list Event :=
  correction_events w i ++ branch_events w i (iter_branch now w i mr).

Definition iter_timers (now : ZonedDateTime) (w : World) (i : string)
    (mr : ZonedDateTime * Value) (r : TimerMgr.t) : TimerMgr.t :=
  match iter_branch now w i mr with
  | Future =>
      TimerMgr.check (get_value w i) (trigger_time w i)
        (CbTransition (get_value w i)) r
  | _ => r
  end.

Fixpoint loop_acc (now : ZonedDateTime) (w : World) (l : list string)
    (mr : ZonedDateTime * Value) : ZonedDateTime * Value :=
  match l with
  | [] => mr
  | i :: l' => loop_acc now w l' (iter_acc now w i mr)
  end.

Fixpoint loop_events (now : ZonedDateTime) (w : World) (l : list string)
    (mr : ZonedDateTime * Value) : list Event :=
  match l with
  | [] => []
  | i :: l' => iter_events now w i mr ++ loop_events now w l' (iter_acc now w i mr)
  end.

Fixpoint loop_timers (now : ZonedDateTime) (w : World) (l : list string)
    (mr : ZonedDateTime * Value) (r : TimerMgr.t) : TimerMgr.t :=
  match l with
  | [] => r
  | i :: l' =>
      loop_timers now w l' (iter_acc now w i mr) (iter_timers now w i mr r)
  end.

(** The state [create_timers] resolves for the current period. *)
Definition resolved_state (w : World) (l : list string) (cur : Value) : Value :=
  snd (loop_acc (clock w) w l (minusDays (clock w) 1, cur)).

Definition is_command_to (item : string) (e : Event) : bool :=
  match e with
  | SendCommand i _ => String.eqb i item
  | _ => false
  end.

(** The calls [create_timers] makes after the loop. *)
Definition final_events (cur resolved : Value) : list Event :=
  [Log INFO "Created {} timers."; Log INFO "The current time of day is {}"]
  ++ (if value_eqb cur resolved then [] else [SendCommand ETOD_ITEM resolved]).

(** The timer the loop checks for a marker in the future. *)
Definition future_timer (w : World) (i : string) : Event :=
  TimerCheck (get_value w i) (trigger_time w i) (CbTransition (get_value w i)).

(** ** Views of a run of ephem_tod *)

(** The calls of lines 211-216, made when the init rule is kicked off. *)
Definition kick_events : list Event :=
  [Log WARN "The following Items are are NULL/UNDEF, kicking off initialization using item_init: {}";
   SendCommand "InitItems" (VStr "ON");
   Sleep 5].

(** The world after the init rule was kicked off and the rule has slept. *)
Definition init_world (h : Host) (w : World) : World :=
  mkWorld (init_items h (items w)) (metadata w) (timers w)
          (clock w + 5 * NANOS_PER_SECOND) (trace w ++ kick_events).

(** The key of the reload timer and the log line of line 236. *)
Definition RELOAD_KEY : Value := VStr "etod_reload".

Definition reload_log (z : Zone.ZoneRules) (now : ZonedDateTime) : list Event :=
  if isBefore (today_0002 z now) now
  then [Log INFO "Creating reload timer for {}"] else [].

(** A run aborts when it returns at one of its two early returns: the last
    thing it did was to log the error that precedes the return. *)
Definition aborts (h : Host) (w : World) : Prop :=
  exists pre,
    emitted (ephem_tod h) w = pre ++ [Log ERROR NO_START_TIMES] \/
    emitted (ephem_tod h) w = pre ++ [Log ERROR STILL_NULL].

(** A run reaches scheduling when it gets to line 227. *)
Definition reaches_scheduling (h : Host) (w : World) : Prop :=
  In TimerCancelAll (emitted (ephem_tod h) w).

(** [w'] is [w] after some calls that left the items, the metadata and the
    clock alone. *)
Definition frames (w w' : World) : Prop :=
  items w' = items w /\ metadata w' = metadata w /\ clock w' = clock w /\
  exists es, trace w' = trace w ++ es.

Definition framed {A} (m : M A) : Prop := forall w, frames w (snd (m w)).

(** ** Sample configurations *)
Module Sample.

Definition day0 : Z := 20000.
Definition at_time (d h m : Z) : ZonedDateTime := atDate d (hms h m 0).
Definition md (v ty : string) : Metadata := mkMetadata v [("type", ty)].

(** A weekday without holidays on which item_init changes nothing. *)
Definition host : Host :=
  mkHost false false (fun _ => false) (fun _ => false) (fun its => its) true Zone.UTC.

Definition meta : list (string * Metadata) :=
  [("Morning", md "DAY" "default"); ("Night", md "NIGHT" "default")].

(** Morning 06:00 DAY and Night 20:00 NIGHT, both dated today; it is 14:00
    and the TimeOfDay Item still says NIGHT. *)
Definition afternoon : World :=
  mkWorld [("TimeOfDay", VStr "NIGHT");
           ("Morning", VDateTime (at_time day0 6 0));
           ("Night", VDateTime (at_time day0 20 0))]
          meta [] (at_time day0 14 0) [].

(** Night still carries yesterday's date; it is 05:00. *)
Definition early : World :=
  mkWorld [("TimeOfDay", VStr "NIGHT");
           ("Morning", VDateTime (at_time day0 6 0));
           ("Night", VDateTime (at_time (day0 - 1) 20 0))]
          meta [] (at_time day0 5 0) [].

(** The same afternoon, with the timers of an earlier cycle still live:
    one for a state EVENING that no marker has any more, and the reload
    timer with its old target. *)
Definition afternoon_again : World :=
  mkWorld (items afternoon) meta
          [(VStr "EVENING", (at_time day0 18 0, CbTransition (VStr "EVENING")));
           (VStr "etod_reload", (at_time day0 0 2, CbReload))]
          (at_time day0 14 0) [].

(** Only weekend markers are configured, and it is a weekday. *)
Definition no_markers : World :=
  mkWorld [("TimeOfDay", VStr "NIGHT");
           ("Morning", VDateTime (at_time day0 6 0))]
          [("Morning", md "DAY" "weekend")]
          [(VStr "NIGHT", (at_time day0 20 0, CbTransition (VStr "NIGHT")))]
          (at_time day0 14 0) [].

(** Night is NULL and stays NULL; timers of an earlier cycle are live. *)
Definition night_null : World :=
  mkWorld [("TimeOfDay", VStr "DAY");
           ("InitItems", VStr "OFF");
           ("Morning", VDateTime (at_time day0 6 0));
           ("Night", VUnDef NULL)]
          meta
          [(VStr "NIGHT", (at_time day0 20 0, CbTransition (VStr "NIGHT")));
           (VStr "etod_reload", (at_time (day0 + 1) 0 2, CbReload))]
          (at_time day0 14 0) [].

(** Two markers with the same time of day, both in the past. *)
Definition tie : World :=
  mkWorld [("TimeOfDay", VStr "NIGHT");
           ("First", VDateTime (at_time day0 6 0));
           ("Second", VDateTime (at_time day0 6 0))]
          [("First", md "A" "default"); ("Second", md "B" "default")]
          [] (at_time day0 14 0) [].

(** A marker whose time of day is exactly now. *)
Definition on_the_dot : World :=
  mkWorld [("TimeOfDay", VStr "NIGHT");
           ("Morning", VDateTime (at_time day0 6 0))]
          [("Morning", md "DAY" "default")]
          [] (at_time day0 6 0) [].

End Sample.

(** ** Further views of create_timers and ephem_tod *)

(** The markers [create_timers] gets through before one of them is not a
    DateTime and the call to [to_datetime] raises. *)
Fixpoint take_while {A} (p : A -> bool) (l : list A) : list A :=
  match l with
  | [] => []
  | x :: l' => if p x then x :: take_while p l' else []
  end.

Definition datetime_prefix (w : World) (l : list string) : list string :=
  take_while (is_datetime w) l.

Definition TRACEBACK : Event := Log ERROR "Traceback (most recent call last)".

(** Everything a call of [create_timers] adds to the trace. *)
Definition create_timers_events (l : list string) (w : World) : list Event :=
  match assoc ETOD_ITEM (items w) with
  | None => [TRACEBACK]
  | Some cur =>
      loop_events (clock w) w (datetime_prefix w l) (minusDays (clock w) 1, cur)
      ++ (if forallb (is_datetime w) l
          then final_events cur (resolved_state w l cur)
          else [TRACEBACK])
  end.

(** The registry a call of [create_timers] leaves. *)
Definition create_timers_registry (l : list string) (w : World) : TimerMgr.t :=
  match assoc ETOD_ITEM (items w) with
  | None => timers w
  | Some cur =>
      loop_timers (clock w) w (datetime_prefix w l) (minusDays (clock w) 1, cur)
        (timers w)
  end.

(** The kinds of call [create_timers] makes on the list [l]. *)
Definition create_timers_call (l : list string) (e : Event) : Prop :=
  match e with
  | Log _ _ => True
  | PostUpdate i _ => In i l
  | TimerCheck _ _ _ => True
  | SendCommand i _ => i = ETOD_ITEM
  | _ => False
  end.

(** [isinstance(items[i], UnDefType)] for an Item of the registry. *)
Definition is_null (w : World) (i : string) : bool :=
  match assoc i (items w) with
  | Some v => is_undef v
  | None => false
  end.

(** Whether a marker of category [d] is eligible today, as lines 102-109
    decide it. *)
Definition eligible (h : Host) (w : World) (d : DayType) (j : string) : Prop :=
  match d with
  | default => True
  | weekday => isWeekend h = false
  | weekend => isWeekend h = true
  | dayset => isInDayset h (get_key_value w j "set") = true
  | holiday => isBankHoliday h = true
  | custom => isBankHolidayIn h (get_key_value w j "file") = true
  end.

(** A marker qualifies today under category [d]: it is an Item of the
    registry, its metadata names [d] as its type, and the calendar makes it
    eligible. *)
Definition qualifies (h : Host) (w : World) (d : DayType) (j : string) : Prop :=
  In j (keys (items w)) /\
  get_key_value w j "type" = Some (type_name d) /\
  eligible h w d j.

(** The calls a run of [ephem_tod] makes before it cancels any timer. *)
Definition before_scheduling (e : Event) : Prop :=
  is_log e = true \/ e = SendCommand "InitItems" (VStr "ON") \/ e = Sleep 5.

(** ** More sample configurations *)
Module Cases.

(** The TimeOfDay Item has been removed. *)
Definition no_time_of_day : World :=
  mkWorld [("Morning", VDateTime (Sample.at_time Sample.day0 6 0));
           ("Night", VDateTime (Sample.at_time Sample.day0 20 0))]
          Sample.meta [] (Sample.at_time Sample.day0 5 0) [].

(** Night is a String Item: [to_datetime] has nothing to resolve. *)
Definition night_is_text : World :=
  mkWorld [("TimeOfDay", VStr "NIGHT");
           ("Morning", VDateTime (Sample.at_time Sample.day0 6 0));
           ("Night", VStr "late")]
          Sample.meta [] (Sample.at_time Sample.day0 5 0) [].

(** Night is NULL and there is no InitItems Item. *)
Definition night_null_no_init : World :=
  mkWorld [("TimeOfDay", VStr "DAY");
           ("Morning", VDateTime (Sample.at_time Sample.day0 6 0));
           ("Night", VUnDef NULL)]
          Sample.meta
          [(VStr "NIGHT", (Sample.at_time Sample.day0 20 0, CbTransition (VStr "NIGHT")))]
          (Sample.at_time Sample.day0 14 0) [].



(** [delete_rule] fails. *)
Definition host_stuck : Host :=
  mkHost false false (fun _ => false) (fun _ => false) (fun its => its) false Zone.UTC.

(** A zone whose clocks are set forward by one hour at midnight of the day
    after [day0]: local 00:00 becomes 01:00 (as in Africa/Cairo on
    2024-04-26).  Before the change the local time is the time line's. *)
Definition spring_forward : Zone.ZoneRules :=
  Zone.mkZone 0 [(Sample.at_time (Sample.day0 + 1) 0 0, NANOS_PER_HOUR)].

Definition host_spring : Host :=
  mkHost false false (fun _ => false) (fun _ => false) (fun its => its) true
    spring_forward.

(** 23:00 on the eve of the change; both markers are in the past and the
    TimeOfDay Item says NIGHT already. *)
Definition eve : World :=
  mkWorld [("TimeOfDay", VStr "NIGHT");
           ("Morning", VDateTime (Sample.at_time Sample.day0 6 0));
           ("Night", VDateTime (Sample.at_time Sample.day0 20 0))]
          Sample.meta [] (Sample.at_time Sample.day0 23 0) [].

(** 14:00 two days before the change, in the same zone. *)
Definition day_before : World :=
  mkWorld (items Sample.afternoon) Sample.meta []
          (Sample.at_time (Sample.day0 - 1) 14 0) [].

(** Metadata in every shape [check_config] tells apart. *)
Definition configs : World :=
  mkWorld [("A", VUnDef NULL); ("B", VUnDef NULL); ("C", VUnDef NULL);
           ("D", VUnDef NULL); ("E", VUnDef NULL); ("F", VUnDef NULL)]
          [("A", mkMetadata "DAY" [("type", "dayset"); ("set", "school")]);
           ("B", mkMetadata "" [("type", "default")]);
           ("C", mkMetadata "DAY" []);
           ("D", mkMetadata "DAY" [("type", "dayset")]);
           ("E", mkMetadata "DAY" [("type", "custom"); ("file", "")]);
           ("F", mkMetadata "DAY" [("type", "weekend")])]
          [] (Sample.at_time Sample.day0 5 0) [].

End Cases.

(** * Properties *)

(** ** Running computations *)

Lemma truthy_false {A} (l : list A) : truthy l = false <-> l = [].
Proof. destruct l; simpl; split; congruence. Qed.

Lemma truthy_true {A} (l : list A) : truthy l = true <-> l <> [].
Proof. destruct l; simpl; split; congruence. Qed.

Lemma emitted_app {A} (m : M A) (w : World) (es : list Event) :
  trace (exec m w) = trace w ++ es -> emitted m w = es.
Proof.
  unfold emitted. intros ->.
  rewrite skipn_app, skipn_all, Nat.sub_diag. reflexivity.
Qed.

(** Unfolds the monad's plumbing in the goal. *)
Ltac mrun :=
  repeat (progress (unfold bind, get, ret, raise, log, sendCommand, postUpdate,
                    tell; cbv beta iota)).

Lemma items_get_some (name : string) (v : Value) (w : World) :
  assoc name (items w) = Some v -> items_get name w = (Ret v, w).
Proof. intros H. unfold items_get. mrun. now rewrite H. Qed.

Lemma items_get_none (name : string) (w : World) :
  assoc name (items w) = None -> items_get name w = (Raise KeyError, w).
Proof. intros H. unfold items_get. mrun. now rewrite H. Qed.

Lemma trace_emit (e : Event) (w : World) : trace (emit e w) = trace w ++ [e].
Proof. reflexivity. Qed.

(** ** get_times *)

Lemma types_type (w : World) (ty j : string) :
  In j (types w ty) -> get_key_value w j "type" = Some ty.
Proof.
  unfold types, type_is. rewrite filter_In. intros [_ H].
  destruct (get_key_value w j "type") as [s|]; [|discriminate].
  apply String.eqb_eq in H. now subst.
Qed.

Lemma start_times_type (h : Host) (w : World) (d : DayType) (j : string) :
  In j (start_times h w d) ->
  get_key_value w j "type" = Some (type_name d).
Proof.
  destruct d; simpl; unfold cond;
    repeat match goal with
           | |- context [if ?b then _ else _] => destruct b; simpl
           end;
    try rewrite filter_In; try tauto;
    intros H; try destruct H as [H _]; now apply types_type.
Qed.

Lemma type_name_inj (d d' : DayType) : type_name d = type_name d' -> d = d'.
Proof. destruct d, d'; simpl; intros H; try reflexivity; discriminate H. Qed.

Lemma choose_day_type_some (st : DayType -> list string) (d : DayType) :
  choose_day_type st = Some d ->
  st d <> [] /\ forall d', (priority d < priority d')%nat -> st d' = [].
Proof.
  unfold choose_day_type.
  destruct (truthy (st custom)) eqn:Hc;
    [|destruct (truthy (st holiday)) eqn:Hh;
      [|destruct (truthy (st dayset)) eqn:Hd;
        [|destruct (truthy (st weekend)) eqn:He;
          [|destruct (truthy (st weekday)) eqn:Hw;
            [|destruct (truthy (st default)) eqn:Hf]]]]];
    intros E; inversion E; subst; clear E;
    (split; [now apply truthy_true|]);
    intros d'; destruct d'; simpl; intros Hlt;
    solve [lia | now apply truthy_false].
Qed.

Lemma choose_day_type_none (st : DayType -> list string) :
  choose_day_type st = None <-> forall d, st d = [].
Proof.
  unfold choose_day_type. split.
  - destruct (truthy (st custom)) eqn:Hc; [discriminate|].
    destruct (truthy (st holiday)) eqn:Hh; [discriminate|].
    destruct (truthy (st dayset)) eqn:Hd; [discriminate|].
    destruct (truthy (st weekend)) eqn:He; [discriminate|].
    destruct (truthy (st weekday)) eqn:Hw; [discriminate|].
    destruct (truthy (st default)) eqn:Hf; [discriminate|].
    intros _ d. destruct d; now apply truthy_false.
  - intros H. now rewrite !H.
Qed.

(** What a call of [get_times] returns and leaves behind. *)
Lemma get_times_run (h : Host) (w : World) :
  get_times h w =
  match choose_day_type (start_times h w) with
  | Some d =>
      (Ret (Some (start_times h w d)),
       emit (Log INFO "Today is a {} day, there are {} time periods today.") w)
  | None =>
      (Ret None, emit (Log ERROR "Traceback (most recent call last)") w)
  end.
Proof.
  unfold get_times, log_traceback, get_times_body, bind, get, log, tell, ret.
  destruct (choose_day_type (start_times h w)); reflexivity.
Qed.

Lemma types_iff (w : World) (ty j : string) :
  In j (types w ty) <->
  In j (keys (items w)) /\ get_key_value w j "type" = Some ty.
Proof.
  unfold types, type_is. rewrite filter_In.
  destruct (get_key_value w j "type") as [s|].
  - rewrite String.eqb_eq. split; intros [Hk Hs]; split; auto; congruence.
  - split; intros [_ Hs]; discriminate Hs.
Qed.

(** The table of lines 102-109 holds, under each key, the markers that
    qualify today under that category, and nothing else. *)
Lemma start_times_iff (h : Host) (w : World) (d : DayType) (j : string) :
  In j (start_times h w d) <-> qualifies h w d j.
Proof.
  unfold qualifies.
  destruct d; cbn [start_times type_name eligible]; unfold cond.
  - rewrite types_iff. tauto.
  - destruct (isWeekend h); cbn [negb].
    + split; [intros []|intros (_ & _ & H); discriminate H].
    + rewrite types_iff. tauto.
  - destruct (isWeekend h).
    + rewrite types_iff. tauto.
    + split; [intros []|intros (_ & _ & H); discriminate H].
  - rewrite filter_In, types_iff. tauto.
  - destruct (isBankHoliday h).
    + rewrite types_iff. tauto.
    + split; [intros []|intros (_ & _ & H); discriminate H].
  - rewrite filter_In, types_iff. tauto.
Qed.

(** C1. For every configuration of markers and every day, [get_times]
    returns the markers of exactly one category, the highest-priority
    non-empty one in the order custom > holiday > dayset > weekend >
    weekday > default.  The list it returns is not empty and holds exactly
    the Items of the registry that qualify today under that category (type
    in the metadata, eligibility by the calendar); no marker qualifies under
    a category of higher priority, and no marker that qualifies under
    another category is in the list.  It returns [None] exactly when no
    marker qualifies under any category, and it never raises. *)
Theorem get_times_single_category (h : Host) (w : World) :
  match result (get_times h) w with
  | Ret (Some l) =>
      exists d,
        l <> [] /\
        (forall j, In j l <-> qualifies h w d j) /\
        (forall d' j, (priority d < priority d')%nat -> ~ qualifies h w d' j) /\
        (forall d' j, d' <> d -> qualifies h w d' j -> ~ In j l)
  | Ret None => forall d j, ~ qualifies h w d j
  | Raise _ => False
  end.
Proof.
  unfold result. rewrite get_times_run.
  destruct (choose_day_type (start_times h w)) as [d|] eqn:E; simpl.
  - destruct (choose_day_type_some _ _ E) as [Hne Hhi].
    exists d. split; [exact Hne|].
    split; [intros j; apply start_times_iff|].
    split.
    + intros d' j Hlt Hq. apply start_times_iff in Hq.
      rewrite (Hhi d' Hlt) in Hq. exact Hq.
    + intros d' j Hd (_ & Hty' & _) Hl.
      apply start_times_iff in Hl. destruct Hl as (_ & Hty & _).
      rewrite Hty in Hty'. inversion Hty' as [Hn].
      apply type_name_inj in Hn. congruence.
  - intros d j Hq. apply start_times_iff in Hq.
    rewrite (proj1 (choose_day_type_none _) E d) in Hq. exact Hq.
Qed.

(** ** etod_transition *)

(** C10. When a transition timer fires, [etod_transition] sends the bound
    state to the TimeOfDay Item as a command whatever the Item's current
    state is, also when the Item already holds that state: every firing
    issues a command. *)
Theorem etod_transition_unconditional
    (h : Host) (st cur : Value) (w : World)
    (Hitem : assoc ETOD_ITEM (items w) = Some cur) :
  result (fire h (CbTransition st)) w = Ret tt /\
  emitted (fire h (CbTransition st)) w =
    [Log INFO "Transitioning Time of Day from {} to {}";
     SendCommand ETOD_ITEM st].
Proof.
  assert (E : etod_transition st w =
              (Ret tt,
               emit (SendCommand ETOD_ITEM st)
                 (emit (Log INFO "Transitioning Time of Day from {} to {}") w))).
  { unfold etod_transition, log_traceback. mrun.
    now rewrite (items_get_some _ _ _ Hitem). }
  split.
  - unfold result. simpl. now rewrite E.
  - apply emitted_app. unfold exec. simpl. rewrite E. simpl.
    now rewrite <- app_assoc.
Qed.

(** The Item already says NIGHT and the NIGHT timer fires: the command is
    sent all the same. *)
Lemma etod_transition_unconditional_witness :
  result (fire Sample.host (CbTransition (VStr "NIGHT"))) Sample.afternoon = Ret tt /\
  emitted (fire Sample.host (CbTransition (VStr "NIGHT"))) Sample.afternoon =
    [Log INFO "Transitioning Time of Day from {} to {}";
     SendCommand ETOD_ITEM (VStr "NIGHT")].
Proof.
  apply (etod_transition_unconditional Sample.host (VStr "NIGHT") (VStr "NIGHT")).
  reflexivity.
Defined.

(** ** ephem_tod: no start times *)

Lemma ephem_tod_no_start_times (h : Host) (w : World) :
  (forall d, start_times h w d = []) ->
  ephem_tod h w =
    (Ret tt,
     emit (Log ERROR NO_START_TIMES)
       (emit (Log ERROR "Traceback (most recent call last)")
          (emit (Log INFO "Recalculating time of day") w))).
Proof.
  intros H. unfold ephem_tod, bind, log, tell.
  rewrite get_times_run.
  change (start_times h (emit (Log INFO "Recalculating time of day") w))
    with (start_times h w).
  rewrite (proj2 (choose_day_type_none _) H). reflexivity.
Qed.

(** C6. On a day on which no category has an eligible marker, [get_times]
    returns [None]; the cycle that receives it logs the error and returns:
    it adds nothing but log lines to the trace and leaves the items, the
    metadata, the timers and the clock as they were. *)
Theorem no_markers_abort (h : Host) (w : World)
    (Hnone : forall d, start_times h w d = []) :
  result (get_times h) w = Ret None /\
  result (ephem_tod h) w = Ret tt /\
  emitted (ephem_tod h) w =
    [Log INFO "Recalculating time of day";
     Log ERROR "Traceback (most recent call last)";
     Log ERROR NO_START_TIMES] /\
  items (exec (ephem_tod h) w) = items w /\
  metadata (exec (ephem_tod h) w) = metadata w /\
  timers (exec (ephem_tod h) w) = timers w /\
  clock (exec (ephem_tod h) w) = clock w.
Proof.
  split.
  - unfold result. rewrite get_times_run.
    now rewrite (proj2 (choose_day_type_none _) Hnone).
  - unfold result, exec.
    split; [now rewrite ephem_tod_no_start_times|].
    split; [|now rewrite ephem_tod_no_start_times].
    apply emitted_app. unfold exec.
    rewrite ephem_tod_no_start_times by assumption.
    simpl. now rewrite <- !app_assoc.
Qed.

(** Only weekend markers on a weekday: the cycle aborts. *)
Lemma no_markers_abort_witness :
  result (get_times Sample.host) Sample.no_markers = Ret None /\
  result (ephem_tod Sample.host) Sample.no_markers = Ret tt /\
  emitted (ephem_tod Sample.host) Sample.no_markers =
    [Log INFO "Recalculating time of day";
     Log ERROR "Traceback (most recent call last)";
     Log ERROR NO_START_TIMES] /\
  items (exec (ephem_tod Sample.host) Sample.no_markers) = items Sample.no_markers /\
  metadata (exec (ephem_tod Sample.host) Sample.no_markers) = metadata Sample.no_markers /\
  timers (exec (ephem_tod Sample.host) Sample.no_markers) = timers Sample.no_markers /\
  clock (exec (ephem_tod Sample.host) Sample.no_markers) = clock Sample.no_markers.
Proof.
  apply (no_markers_abort Sample.host Sample.no_markers).
  intros d. destruct d; reflexivity.
Defined.

(** ** create_timers: one pass and the whole loop *)

Lemma is_datetime_stored (w : World) (i : string) :
  is_datetime w i = true ->
  assoc i (items w) = Some (VDateTime (stored_time w i)).
Proof.
  unfold is_datetime, stored_time.
  destruct (assoc i (items w)) as [[| | |t]|]; intros H;
    try discriminate; reflexivity.
Qed.

Lemma create_timers_iter_run (now : ZonedDateTime) (i : string)
    (mr : ZonedDateTime * Value) (w : World) :
  is_datetime w i = true ->
  create_timers_iter now i mr w =
    (Ret (iter_acc now w i mr),
     mkWorld (items w) (metadata w) (iter_timers now w i mr (timers w))
             (clock w) (trace w ++ iter_events now w i mr)).
Proof.
  intros H. apply is_datetime_stored in H.
  unfold create_timers_iter, to_today, to_datetime, ZonedDateTime_now,
    timers_check.
  mrun. rewrite (items_get_some _ _ _ H). cbv beta iota.
  rewrite (items_get_some _ _ _ H). cbv beta iota.
  unfold iter_acc, iter_events, iter_timers, iter_branch, classify,
    correction_events.
  fold (trigger_time w i).
  destruct w as [its md tm clk tr]; simpl in *.
  set (trig := trigger_time _ i).
  destruct (isBefore (stored_time _ i) trig); simpl;
    destruct (isBefore trig now && isAfter trig (fst mr)); simpl;
    try destruct (isAfter trig now); simpl; unfold emit, set_timers; simpl;
    rewrite <- ?app_assoc; simpl; rewrite ?app_nil_r; reflexivity.
Qed.

(** The loop reads the items, the metadata and the clock only. *)
Lemma loop_acc_store (now : ZonedDateTime) (w : World) (tm : TimerMgr.t)
    (tr : list Event) (l : list string) :
  forall mr,
  loop_acc now (mkWorld (items w) (metadata w) tm (clock w) tr) l mr =
  loop_acc now w l mr.
Proof.
  induction l as [|i l IH]; intros mr; simpl; [reflexivity|].
  change (iter_acc now (mkWorld (items w) (metadata w) tm (clock w) tr) i mr)
    with (iter_acc now w i mr).
  apply IH.
Qed.

Lemma loop_events_store (now : ZonedDateTime) (w : World) (tm : TimerMgr.t)
    (tr : list Event) (l : list string) :
  forall mr,
  loop_events now (mkWorld (items w) (metadata w) tm (clock w) tr) l mr =
  loop_events now w l mr.
Proof.
  induction l as [|i l IH]; intros mr; simpl; [reflexivity|].
  change (iter_acc now (mkWorld (items w) (metadata w) tm (clock w) tr) i mr)
    with (iter_acc now w i mr).
  change (iter_events now (mkWorld (items w) (metadata w) tm (clock w) tr) i mr)
    with (iter_events now w i mr).
  now rewrite IH.
Qed.

Lemma loop_timers_store (now : ZonedDateTime) (w : World) (tm : TimerMgr.t)
    (tr : list Event) (l : list string) :
  forall mr r,
  loop_timers now (mkWorld (items w) (metadata w) tm (clock w) tr) l mr r =
  loop_timers now w l mr r.
Proof.
  induction l as [|i l IH]; intros mr r; simpl; [reflexivity|].
  change (iter_acc now (mkWorld (items w) (metadata w) tm (clock w) tr) i mr)
    with (iter_acc now w i mr).
  change (iter_timers now (mkWorld (items w) (metadata w) tm (clock w) tr) i mr r)
    with (iter_timers now w i mr r).
  apply IH.
Qed.

Lemma create_timers_loop_run (now : ZonedDateTime) (l : list string) :
  forall (mr : ZonedDateTime * Value) (w : World),
  forallb (is_datetime w) l = true ->
  create_timers_loop now l mr w =
    (Ret (loop_acc now w l mr),
     mkWorld (items w) (metadata w) (loop_timers now w l mr (timers w))
             (clock w) (trace w ++ loop_events now w l mr)).
Proof.
  unfold create_timers_loop.
  induction l as [|i l IH]; intros mr w H; simpl.
  - unfold ret. rewrite app_nil_r. now destruct w.
  - simpl in H. apply andb_prop in H. destruct H as [Hi Hl].
    unfold bind at 1. rewrite (create_timers_iter_run _ _ _ _ Hi).
    rewrite IH by exact Hl.
    cbn [items metadata timers clock trace].
    rewrite loop_acc_store, loop_events_store, loop_timers_store.
    now rewrite <- app_assoc.
Qed.

Lemma create_timers_run (l : list string) (cur : Value) (w : World) :
  assoc ETOD_ITEM (items w) = Some cur ->
  forallb (is_datetime w) l = true ->
  create_timers l w =
    (Ret tt,
     mkWorld (items w) (metadata w)
             (loop_timers (clock w) w l (minusDays (clock w) 1, cur) (timers w))
             (clock w)
             (trace w ++ loop_events (clock w) w l (minusDays (clock w) 1, cur)
                ++ final_events cur (resolved_state w l cur))).
Proof.
  intros Hcur Hl.
  unfold create_timers, log_traceback, create_timers_body, ZonedDateTime_now,
    send_command_if_different.
  mrun. rewrite (items_get_some _ _ _ Hcur). cbv beta iota.
  rewrite (create_timers_loop_run _ _ _ _ Hl). cbv beta iota.
  unfold emit; simpl.
  rewrite (items_get_some _ cur) by exact Hcur. cbv beta iota.
  unfold final_events, resolved_state.
  destruct (value_eqb cur _); simpl; rewrite <- ?app_assoc; simpl;
    rewrite <- ?app_assoc; reflexivity.
Qed.

(** ** Dates and times of day *)

Ltac time_arith :=
  unfold trigger_time, plusDays, minusDays, withNano,
    withSecond, withMinute, withHour, getNano, getSecond, getMinute, getHour,
    atDate, toLocalDate, toLocalTime, isBefore, isAfter, hms,
    NANOS_PER_DAY, NANOS_PER_HOUR, NANOS_PER_MINUTE, NANOS_PER_SECOND in *;
  Z.div_mod_to_equations; lia.

Lemma atDate_date (d tod : Z) :
  0 <= tod < NANOS_PER_DAY -> toLocalDate (atDate d tod) = d.
Proof. intros H. time_arith. Qed.

Lemma atDate_time (d tod : Z) :
  0 <= tod < NANOS_PER_DAY -> toLocalTime (atDate d tod) = tod.
Proof. intros H. time_arith. Qed.

Lemma toLocalTime_range (t : ZonedDateTime) : 0 <= toLocalTime t < NANOS_PER_DAY.
Proof. time_arith. Qed.

(** The trigger time is today's date with the marker's time of day. *)
Lemma trigger_time_date (w : World) (i : string) :
  toLocalDate (trigger_time w i) = toLocalDate (clock w).
Proof. unfold trigger_time. apply atDate_date, toLocalTime_range. Qed.

Lemma trigger_time_time (w : World) (i : string) :
  toLocalTime (trigger_time w i) = toLocalTime (stored_time w i).
Proof. unfold trigger_time. apply atDate_time, toLocalTime_range. Qed.

(** Every trigger time is after the baseline, one day before now. *)
Lemma trigger_after_baseline (w : World) (i : string) :
  minusDays (clock w) 1 < trigger_time w i.
Proof. time_arith. Qed.

Lemma stale_before_trigger (w : World) (i : string) :
  toLocalDate (stored_time w i) < toLocalDate (clock w) ->
  isBefore (stored_time w i) (trigger_time w i) = true.
Proof.
  intros H. unfold isBefore. apply Z.ltb_lt. revert H. time_arith.
Qed.

(** ** The reload time *)

Lemma with_midnight_two (now : ZonedDateTime) :
  withNano 0 (withSecond 0 (withMinute 2 (withHour 0 now))) =
  atDate (toLocalDate now) (hms 0 2 0).
Proof. time_arith. Qed.

(** The local time a method of [ZonedDateTime] sets is the one the result
    reads, when that local time exists in the zone. *)
Lemma resolveLocal_valid (z : Zone.ZoneRules) (t : ZonedDateTime) (ldt : Z) :
  Zone.valid z ldt ->
  Zone.toLocalDateTime z (Zone.resolveLocal z t ldt) = ldt.
Proof. intros H. apply H. Qed.

(** Where no local time of the first hour of today is skipped, line 233
    gives an instant that reads 00:02:00 of today. *)
Lemma today_0002_local (z : Zone.ZoneRules) (now : ZonedDateTime) :
  (forall ldt, toLocalDate ldt = Zone.toLocalDate z now ->
               toLocalTime ldt < NANOS_PER_HOUR -> Zone.valid z ldt) ->
  Zone.toLocalDateTime z (today_0002 z now) =
    atDate (Zone.toLocalDate z now) (hms 0 2 0).
Proof.
  intros Hhour. unfold Zone.toLocalDate in *.
  set (L := Zone.toLocalDateTime z now) in *.
  unfold today_0002.
  assert (H1 : Zone.toLocalDateTime z (Zone.withHour z 0 now) = withHour 0 L).
  { apply resolveLocal_valid, Hhour; fold L; time_arith. }
  assert (H2 : Zone.toLocalDateTime z (Zone.withMinute z 2 (Zone.withHour z 0 now)) =
               withMinute 2 (withHour 0 L)).
  { unfold Zone.withMinute at 1. rewrite H1.
    apply resolveLocal_valid, Hhour; time_arith. }
  assert (H3 : Zone.toLocalDateTime z
                 (Zone.withSecond z 0 (Zone.withMinute z 2 (Zone.withHour z 0 now))) =
               withSecond 0 (withMinute 2 (withHour 0 L))).
  { unfold Zone.withSecond at 1. rewrite H2.
    apply resolveLocal_valid, Hhour; time_arith. }
  unfold Zone.withNano at 1. rewrite H3.
  rewrite resolveLocal_valid; [apply with_midnight_two|].
  apply Hhour; time_arith.
Qed.

(** The target of the reload timer under the same condition: today's
    00:02:00 if it is not before now, else 00:02:00 of tomorrow, if that
    local time exists. *)
Lemma reload_time_of_local (z : Zone.ZoneRules) (now : ZonedDateTime) :
  (forall ldt, toLocalDate ldt = Zone.toLocalDate z now ->
               toLocalTime ldt < NANOS_PER_HOUR -> Zone.valid z ldt) ->
  Zone.valid z (atDate (Zone.toLocalDate z now + 1) (hms 0 2 0)) ->
  (today_0002 z now < now ->
   Zone.toLocalDateTime z (reload_time_of z now) =
     atDate (Zone.toLocalDate z now + 1) (hms 0 2 0)) /\
  (now <= today_0002 z now -> reload_time_of z now = today_0002 z now).
Proof.
  intros Hhour Hnext. pose proof (today_0002_local z now Hhour) as Hr.
  unfold reload_time_of. cbv zeta. unfold isBefore. split; intros Hcmp.
  - apply Z.ltb_lt in Hcmp. rewrite Hcmp.
    unfold Zone.plusDays. rewrite Hr.
    replace (plusDays (atDate (Zone.toLocalDate z now) (hms 0 2 0)) 1)
      with (atDate (Zone.toLocalDate z now + 1) (hms 0 2 0)) by time_arith.
    now apply resolveLocal_valid.
  - apply Z.ltb_ge in Hcmp. now rewrite Hcmp.
Qed.

(** Where the instants before and after have one offset, before and after
    is what the wall clock shows. *)
Lemma same_offset_order (z : Zone.ZoneRules) (a b : ZonedDateTime) :
  Zone.getOffset z a = Zone.getOffset z b ->
  (a < b <-> Zone.toLocalDateTime z a < Zone.toLocalDateTime z b).
Proof. unfold Zone.toLocalDateTime. intros ->. lia. Qed.

(** While the zone keeps one offset, the reload time is the one computed on
    the local time line. *)
Lemma reload_time_of_steady (z : Zone.ZoneRules) (o : Z) (now : ZonedDateTime) :
  Zone.steady z o (now - NANOS_PER_DAY) (now + NANOS_PER_DAY) ->
  reload_time_of z now =
    (let r := atDate (toLocalDate (now + o)) (hms 0 2 0) in
     if r <? now + o then r + NANOS_PER_DAY else r) - o.
Proof.
  intros [Hoff Hloc].
  assert (Hop : forall (f : Z -> Z) (t : ZonedDateTime),
             now - NANOS_PER_DAY <= t <= now + NANOS_PER_DAY ->
             now - NANOS_PER_DAY <= f (t + o) - o <= now + NANOS_PER_DAY ->
             Zone.resolveLocal z t (f (Zone.toLocalDateTime z t)) = f (t + o) - o).
  { intros f t Ht Hf. unfold Zone.resolveLocal, Zone.toLocalDateTime.
    rewrite (Hoff t Ht). now apply Hloc. }
  set (L := now + o).
  assert (H1 : Zone.withHour z 0 now = withHour 0 L - o).
  { unfold Zone.withHour. apply (Hop (withHour 0)); subst L; time_arith. }
  assert (H2 : Zone.withMinute z 2 (Zone.withHour z 0 now) =
               withMinute 2 (withHour 0 L) - o).
  { rewrite H1. unfold Zone.withMinute.
    rewrite (Hop (withMinute 2)); subst L;
      [f_equal; f_equal; lia|time_arith|time_arith]. }
  assert (H3 : Zone.withSecond z 0 (Zone.withMinute z 2 (Zone.withHour z 0 now)) =
               withSecond 0 (withMinute 2 (withHour 0 L)) - o).
  { rewrite H2. unfold Zone.withSecond.
    rewrite (Hop (withSecond 0)); subst L;
      [f_equal; f_equal; lia|time_arith|time_arith]. }
  assert (H4 : today_0002 z now = atDate (toLocalDate L) (hms 0 2 0) - o).
  { unfold today_0002. rewrite H3. unfold Zone.withNano.
    rewrite (Hop (withNano 0)); subst L;
      [rewrite <- with_midnight_two; f_equal; f_equal; lia
      |time_arith|time_arith]. }
  unfold reload_time_of. cbv zeta. rewrite H4. unfold isBefore.
  replace (atDate (toLocalDate L) (hms 0 2 0) - o <? now)
    with (atDate (toLocalDate L) (hms 0 2 0) <? L)
    by (subst L; destruct (Z.ltb_spec (atDate (toLocalDate (now + o)) (hms 0 2 0)) (now + o));
        destruct (Z.ltb_spec (atDate (toLocalDate (now + o)) (hms 0 2 0) - o) now);
        try reflexivity; lia).
  destruct (Z.ltb_spec (atDate (toLocalDate L) (hms 0 2 0)) L) as [Hlt|Hge];
    [|reflexivity].
  unfold Zone.plusDays.
  rewrite (Hop (fun l => plusDays l 1)); subst L;
    [unfold plusDays; lia|time_arith|time_arith].
Qed.

(** ** What the loop emits and resolves *)

Lemma create_timers_emitted (l : list string) (cur : Value) (w : World) :
  assoc ETOD_ITEM (items w) = Some cur ->
  forallb (is_datetime w) l = true ->
  emitted (create_timers l) w =
    loop_events (clock w) w l (minusDays (clock w) 1, cur)
    ++ final_events cur (resolved_state w l cur).
Proof.
  intros Hcur Hl. apply emitted_app. unfold exec.
  now rewrite (create_timers_run l cur w Hcur Hl).
Qed.

Lemma create_timers_result (l : list string) (cur : Value) (w : World) :
  assoc ETOD_ITEM (items w) = Some cur ->
  forallb (is_datetime w) l = true ->
  result (create_timers l) w = Ret tt.
Proof.
  intros Hcur Hl. unfold result.
  now rewrite (create_timers_run l cur w Hcur Hl).
Qed.

Lemma loop_acc_app (now : ZonedDateTime) (w : World) (l1 l2 : list string) :
  forall mr,
  loop_acc now w (l1 ++ l2) mr = loop_acc now w l2 (loop_acc now w l1 mr).
Proof. induction l1 as [|i l1 IH]; intros mr; simpl; auto. Qed.

Lemma loop_events_app (now : ZonedDateTime) (w : World) (l1 l2 : list string) :
  forall mr,
  loop_events now w (l1 ++ l2) mr =
  loop_events now w l1 mr ++ loop_events now w l2 (loop_acc now w l1 mr).
Proof.
  induction l1 as [|i l1 IH]; intros mr; simpl; [reflexivity|].
  now rewrite IH, app_assoc.
Qed.

Lemma classify_future (now mrt trig : ZonedDateTime) :
  classify now mrt trig = Future <-> isAfter trig now = true.
Proof.
  unfold classify, isBefore, isAfter.
  destruct (trig <? now) eqn:B; destruct (mrt <? trig) eqn:A;
    destruct (now <? trig) eqn:F; simpl; split; intros H;
    try discriminate; try reflexivity;
    apply Z.ltb_lt in B; apply Z.ltb_lt in F; lia.
Qed.

Lemma classify_most_recent (now mrt trig : ZonedDateTime) :
  classify now mrt trig = MostRecent <-> trig < now /\ mrt < trig.
Proof.
  unfold classify, isBefore, isAfter.
  destruct (trig <? now) eqn:B; destruct (mrt <? trig) eqn:A; simpl;
    rewrite ?Z.ltb_lt, ?Z.ltb_ge in *;
    (split; [intros H | intros [H1 H2]]);
    try reflexivity; try lia;
    destruct (now <? trig); discriminate.
Qed.

(** The loop issues no command: it logs, posts updates and checks timers. *)
Lemma loop_events_no_command (now : ZonedDateTime) (w : World) (item : string)
    (l : list string) :
  forall mr, existsb (is_command_to item) (loop_events now w l mr) = false.
Proof.
  induction l as [|i l IH]; intros mr; simpl; [reflexivity|].
  rewrite existsb_app, IH, orb_false_r.
  unfold iter_events, correction_events. rewrite existsb_app.
  destruct (isBefore _ _); destruct (iter_branch now w i mr); reflexivity.
Qed.

(** With no marker strictly in the past, the loop keeps its baseline. *)
Lemma loop_acc_no_past (now : ZonedDateTime) (w : World) (l : list string) :
  (forall i, In i l -> isBefore (trigger_time w i) now = false) ->
  forall mr, loop_acc now w l mr = mr.
Proof.
  induction l as [|i l IH]; intros H mr; simpl; [reflexivity|].
  assert (E : iter_acc now w i mr = mr).
  { unfold iter_acc, iter_branch, classify.
    rewrite (H i (or_introl eq_refl)). simpl.
    now destruct (isAfter _ now). }
  rewrite E. apply IH. intros j Hj. apply H. now right.
Qed.

(** The timers the loop checks: one per marker strictly after now, in
    processing order, keyed by the marker's state and bound to it. *)
Lemma loop_events_timers (now : ZonedDateTime) (w : World) (l : list string) :
  forall mr,
  filter is_timer_event (loop_events now w l mr) =
  map (future_timer w) (filter (fun i => isAfter (trigger_time w i) now) l).
Proof.
  induction l as [|i l IH]; intros mr; simpl; [reflexivity|].
  rewrite filter_app, IH. unfold iter_events. rewrite filter_app.
  assert (C : filter is_timer_event (correction_events w i) = []).
  { unfold correction_events. now destruct (isBefore _ _). }
  rewrite C. simpl. unfold iter_branch.
  destruct (classify now (fst mr) (trigger_time w i)) eqn:E.
  - apply classify_most_recent in E. destruct E as [E _].
    assert (F : isAfter (trigger_time w i) now = false)
      by (unfold isAfter; apply Z.ltb_ge; lia).
    now rewrite F.
  - apply classify_future in E. now rewrite E.
  - destruct (isAfter (trigger_time w i) now) eqn:F.
    + apply (classify_future now (fst mr)) in F. congruence.
    + reflexivity.
Qed.

(** The loop resolves the first, in processing order, of the markers whose
    trigger time is the latest strictly before now and after the baseline;
    without such a marker it keeps the baseline. *)
Lemma loop_acc_spec (now : ZonedDateTime) (w : World) (l : list string) :
  forall mr,
  ((forall j, In j l -> trigger_time w j < now -> trigger_time w j <= fst mr)
   /\ loop_acc now w l mr = mr)
  \/
  (exists pre i post,
      l = pre ++ i :: post /\
      trigger_time w i < now /\ fst mr < trigger_time w i /\
      loop_acc now w l mr = (trigger_time w i, get_value w i) /\
      (forall j, In j pre -> trigger_time w j < now ->
                 trigger_time w j < trigger_time w i) /\
      (forall j, In j post -> trigger_time w j < now ->
                 trigger_time w j <= trigger_time w i)).
Proof.
  induction l as [|i l IH]; intros mr.
  - left. split; [intros j []|reflexivity].
  - change (loop_acc now w (i :: l) mr)
      with (loop_acc now w l (iter_acc now w i mr)).
    destruct (iter_branch now w i mr) eqn:E.
    + assert (Hacc : iter_acc now w i mr = (trigger_time w i, get_value w i))
        by (unfold iter_acc; now rewrite E).
      rewrite Hacc.
      unfold iter_branch in E.
      apply classify_most_recent in E. destruct E as [Hnow Hmr].
      destruct (IH (trigger_time w i, get_value w i))
        as [[Hle Heq] | (pre & k & post & Hl & Hk & Hgt & Heq & Hpre & Hpost)].
      * right. exists [], i, l.
        split; [reflexivity|]. split; [exact Hnow|]. split; [exact Hmr|].
        split; [exact Heq|]. split; [intros j []|exact Hle].
      * right. exists (i :: pre), k, post. subst l.
        cbn [fst] in Hgt.
        split; [reflexivity|]. split; [exact Hk|].
        split; [exact (Z.lt_trans _ _ _ Hmr Hgt)|].
        split; [exact Heq|]. split; [|exact Hpost].
        intros j [<-|Hj] Hjn; auto.
    + assert (Hacc : iter_acc now w i mr = mr)
        by (unfold iter_acc; now rewrite E).
      rewrite Hacc.
      unfold iter_branch in E.
      apply classify_future in E. unfold isAfter in E. apply Z.ltb_lt in E.
      destruct (IH mr)
        as [[Hle Heq] | (pre & k & post & Hl & Hk & Hgt & Heq & Hpre & Hpost)].
      * left. split; auto. intros j [<-|Hj] Hjn; [lia|auto].
      * right. exists (i :: pre), k, post. subst l.
        split; [reflexivity|]. split; [exact Hk|]. split; [exact Hgt|].
        split; [exact Heq|]. split; [|exact Hpost].
        intros j [<-|Hj] Hjn; [lia|auto].
    + assert (Hacc : iter_acc now w i mr = mr)
        by (unfold iter_acc; now rewrite E).
      rewrite Hacc.
      assert (Hnot : ~ (trigger_time w i < now /\ fst mr < trigger_time w i)).
      { intros H. apply classify_most_recent in H.
        unfold iter_branch in E.
        discriminate (eq_trans (eq_sym H) E). }
      destruct (IH mr)
        as [[Hle Heq] | (pre & k & post & Hl & Hk & Hgt & Heq & Hpre & Hpost)].
      * left. split; auto. intros j [<-|Hj] Hjn; [lia|auto].
      * right. exists (i :: pre), k, post. subst l.
        split; [reflexivity|]. split; [exact Hk|]. split; [exact Hgt|].
        split; [exact Heq|]. split; [|exact Hpost].
        intros j [<-|Hj] Hjn; [lia|auto].
Qed.

(** ** create_timers: the claims *)

(** C3. The baseline of [create_timers] is the instant one day before now
    paired with the current state of the TimeOfDay Item: the loop starts
    from it.  When no marker's trigger time is in the past, the resolved
    state is that current state and no command is sent to any Item. *)
Theorem baseline_preserves_state (l : list string) (cur : Value) (w : World)
    (Hcur : assoc ETOD_ITEM (items w) = Some cur)
    (Hdt : forallb (is_datetime w) l = true)
    (Hnopast : forall i, In i l -> isBefore (trigger_time w i) (clock w) = false) :
  create_timers_body l w =
    (mr <- create_timers_loop (clock w) l (minusDays (clock w) 1, cur) ;;
     log INFO "Created {} timers." ;;
     log INFO "The current time of day is {}" ;;
     send_command_if_different ETOD_ITEM (snd mr)) w /\
  result (create_timers_loop (clock w) l (minusDays (clock w) 1, cur)) w =
    Ret (minusDays (clock w) 1, cur) /\
  result (create_timers l) w = Ret tt /\
  (forall item v, ~ In (SendCommand item v) (emitted (create_timers l) w)).
Proof.
  split; [|split; [|split]].
  - unfold create_timers_body, ZonedDateTime_now. mrun.
    now rewrite (items_get_some _ _ _ Hcur).
  - unfold result. rewrite (create_timers_loop_run _ _ _ _ Hdt). simpl.
    now rewrite loop_acc_no_past.
  - now apply create_timers_result with (cur := cur).
  - intros item v Hin.
    rewrite (create_timers_emitted l cur w Hcur Hdt) in Hin.
    apply in_app_or in Hin. destruct Hin as [Hin|Hin].
    + pose proof (loop_events_no_command (clock w) w item l
                    (minusDays (clock w) 1, cur)) as Hno.
      rewrite <- not_true_iff_false in Hno. apply Hno.
      apply existsb_exists. exists (SendCommand item v). split; auto.
      simpl. apply String.eqb_refl.
    + unfold final_events, resolved_state in Hin.
      rewrite loop_acc_no_past in Hin by assumption. simpl in Hin.
      unfold value_eqb in Hin.
      destruct (Value_eq_dec cur cur) as [_|N]; [|now apply N].
      simpl in Hin. destruct Hin as [Hin|[Hin|[]]]; discriminate.
Qed.

(** At 05:00, with Morning at 06:00 and Night at 20:00, no marker is in the
    past: the Item keeps saying NIGHT and no command is sent. *)
Lemma baseline_preserves_state_witness :
  result (create_timers_loop (clock Sample.early) ["Morning"; "Night"]
            (minusDays (clock Sample.early) 1, VStr "NIGHT")) Sample.early =
    Ret (minusDays (clock Sample.early) 1, VStr "NIGHT") /\
  result (create_timers ["Morning"; "Night"]) Sample.early = Ret tt /\
  (forall item v,
      ~ In (SendCommand item v)
          (emitted (create_timers ["Morning"; "Night"]) Sample.early)).
Proof.
  assert (Hnopast : forall i, In i ["Morning"; "Night"] ->
            isBefore (trigger_time Sample.early i) (clock Sample.early) = false)
    by (intros i [<-|[<-|[]]]; reflexivity).
  exact (proj2 (baseline_preserves_state ["Morning"; "Night"] (VStr "NIGHT")
                  Sample.early eq_refl eq_refl Hnopast)).
Defined.

Lemma filter_none {A} (f : A -> bool) (l : list A) :
  existsb f l = false -> filter f l = [].
Proof.
  induction l as [|a l IH]; simpl; [reflexivity|].
  destruct (f a); simpl; [discriminate|exact IH].
Qed.

Lemma value_eqb_eq (a b : Value) : value_eqb a b = true <-> a = b.
Proof.
  unfold value_eqb. destruct (Value_eq_dec a b); split; intros;
    congruence.
Qed.

Lemma create_timers_commands (l : list string) (cur : Value) (w : World) :
  assoc ETOD_ITEM (items w) = Some cur ->
  forallb (is_datetime w) l = true ->
  filter (is_command_to ETOD_ITEM) (emitted (create_timers l) w) =
    if value_eqb cur (resolved_state w l cur) then []
    else [SendCommand ETOD_ITEM (resolved_state w l cur)].
Proof.
  intros Hcur Hdt.
  rewrite (create_timers_emitted l cur w Hcur Hdt), filter_app.
  rewrite (filter_none _ _ (loop_events_no_command _ _ _ _ _)).
  unfold final_events. simpl.
  now destruct (value_eqb cur (resolved_state w l cur)).
Qed.

(** C8. [create_timers] commands the TimeOfDay Item only when the state it
    resolved differs from the state the Item holds: the commands it sends to
    the Item are none when the two are equal and the one command carrying the
    resolved state otherwise. *)
Theorem command_only_if_different (l : list string) (cur : Value) (w : World)
    (Hcur : assoc ETOD_ITEM (items w) = Some cur)
    (Hdt : forallb (is_datetime w) l = true) :
  (exists most_recent_time,
      result (create_timers_loop (clock w) l (minusDays (clock w) 1, cur)) w =
        Ret (most_recent_time, resolved_state w l cur)) /\
  (resolved_state w l cur = cur ->
   forall v, ~ In (SendCommand ETOD_ITEM v) (emitted (create_timers l) w)) /\
  (resolved_state w l cur <> cur ->
   filter (is_command_to ETOD_ITEM) (emitted (create_timers l) w) =
     [SendCommand ETOD_ITEM (resolved_state w l cur)]).
Proof.
  pose proof (create_timers_commands l cur w Hcur Hdt) as Hc.
  split; [|split].
  - exists (fst (loop_acc (clock w) w l (minusDays (clock w) 1, cur))).
    unfold result, resolved_state.
    rewrite (create_timers_loop_run _ _ _ _ Hdt). simpl.
    now destruct (loop_acc _ _ _ _).
  - intros Heq v Hin.
    assert (Hf : In (SendCommand ETOD_ITEM v)
                   (filter (is_command_to ETOD_ITEM)
                      (emitted (create_timers l) w))).
    { apply filter_In. split; [exact Hin|]. apply String.eqb_refl. }
    rewrite Hc, Heq in Hf.
    rewrite (proj2 (value_eqb_eq cur cur) eq_refl) in Hf. exact Hf.
  - intros Hne. rewrite Hc.
    destruct (value_eqb cur (resolved_state w l cur)) eqn:E; [|reflexivity].
    apply value_eqb_eq in E. congruence.
Qed.

(** At 14:00 the Item says NIGHT and Morning (06:00, DAY) is the most recent
    marker: the one command sent carries DAY. *)
Lemma command_only_if_different_witness :
  resolved_state Sample.afternoon ["Morning"; "Night"] (VStr "NIGHT") = VStr "DAY" /\
  filter (is_command_to ETOD_ITEM)
    (emitted (create_timers ["Morning"; "Night"]) Sample.afternoon) =
    [SendCommand ETOD_ITEM (VStr "DAY")].
Proof.
  split; [reflexivity|].
  apply (command_only_if_different ["Morning"; "Night"] (VStr "NIGHT")
           Sample.afternoon eq_refl eq_refl).
  vm_compute. discriminate.
Defined.

Lemma final_events_no_timer (cur r : Value) :
  filter is_timer_event (final_events cur r) = [].
Proof. unfold final_events. simpl. now destruct (value_eqb cur r). Qed.

(** C2, as the code has it.  [create_timers] resolves the state of the
    marker whose trigger time is the latest strictly before now; among
    markers with that same trigger time the first one processed wins; with
    no marker strictly before now it resolves the Item's current state.  The
    resolved state is what the Item is commanded to when it differs from the
    current one.  The timers checked are those of the markers whose trigger
    time is strictly after now, in processing order, each keyed by the
    marker's state and bound to it. *)
Theorem create_timers_resolves_first_latest_past
    (l : list string) (cur : Value) (w : World)
    (Hcur : assoc ETOD_ITEM (items w) = Some cur)
    (Hdt : forallb (is_datetime w) l = true) :
  (exists most_recent_time,
      result (create_timers_loop (clock w) l (minusDays (clock w) 1, cur)) w =
        Ret (most_recent_time, resolved_state w l cur)) /\
  filter (is_command_to ETOD_ITEM) (emitted (create_timers l) w) =
    (if value_eqb cur (resolved_state w l cur) then []
     else [SendCommand ETOD_ITEM (resolved_state w l cur)]) /\
  filter is_timer_event (emitted (create_timers l) w) =
    map (future_timer w)
        (filter (fun i => isAfter (trigger_time w i) (clock w)) l) /\
  (((forall j, In j l -> ~ trigger_time w j < clock w) /\
    resolved_state w l cur = cur)
   \/
   (exists pre i post,
       l = pre ++ i :: post /\
       trigger_time w i < clock w /\
       resolved_state w l cur = get_value w i /\
       (forall j, In j pre -> trigger_time w j < clock w ->
                  trigger_time w j < trigger_time w i) /\
       (forall j, In j post -> trigger_time w j < clock w ->
                  trigger_time w j <= trigger_time w i))).
Proof.
  split; [|split; [|split]].
  - exists (fst (loop_acc (clock w) w l (minusDays (clock w) 1, cur))).
    unfold result, resolved_state.
    rewrite (create_timers_loop_run _ _ _ _ Hdt). simpl.
    now destruct (loop_acc _ _ _ _).
  - now apply create_timers_commands.
  - rewrite (create_timers_emitted l cur w Hcur Hdt), filter_app.
    rewrite final_events_no_timer, app_nil_r.
    apply loop_events_timers.
  - unfold resolved_state.
    destruct (loop_acc_spec (clock w) w l (minusDays (clock w) 1, cur))
      as [[Hle Heq] | (pre & i & post & Hl & Hi & _ & Heq & Hpre & Hpost)].
    + left. split; [|now rewrite Heq].
      intros j Hj Hlt. specialize (Hle j Hj Hlt). simpl in Hle.
      pose proof (trigger_after_baseline w j). lia.
    + right. exists pre, i, post. rewrite Heq. simpl. auto.
Qed.

(** The scenario of the specification: Morning 06:00 DAY, Night 20:00 NIGHT,
    now 14:00.  The state resolves to DAY and one timer is checked, for NIGHT
    at 20:00. *)
Lemma create_timers_resolves_first_latest_past_witness :
  resolved_state Sample.afternoon ["Morning"; "Night"] (VStr "NIGHT") = VStr "DAY" /\
  filter is_timer_event
    (emitted (create_timers ["Morning"; "Night"]) Sample.afternoon) =
    [TimerCheck (VStr "NIGHT") (Sample.at_time Sample.day0 20 0)
       (CbTransition (VStr "NIGHT"))].
Proof.
  split; [reflexivity|].
  exact (proj1 (proj2 (proj2
    (create_timers_resolves_first_latest_past ["Morning"; "Night"]
       (VStr "NIGHT") Sample.afternoon eq_refl eq_refl)))).
Defined.

(** C2 as stated fails twice.  Of two markers with the same trigger time in
    the past, the first processed wins, not the last; and a marker whose
    trigger time is exactly now is neither taken as the most recent state
    nor given a timer. *)
Lemma last_wins_counterexample :
  (result (get_times Sample.host) Sample.tie = Ret (Some ["First"; "Second"]) /\
   trigger_time Sample.tie "First" = trigger_time Sample.tie "Second" /\
   trigger_time Sample.tie "Second" < clock Sample.tie /\
   get_value Sample.tie "Second" = VStr "B" /\
   filter (is_command_to ETOD_ITEM)
     (emitted (create_timers ["First"; "Second"]) Sample.tie) =
     [SendCommand ETOD_ITEM (VStr "A")]) /\
  (trigger_time Sample.on_the_dot "Morning" = clock Sample.on_the_dot /\
   get_value Sample.on_the_dot "Morning" = VStr "DAY" /\
   assoc ETOD_ITEM (items Sample.on_the_dot) = Some (VStr "NIGHT") /\
   emitted (create_timers ["Morning"]) Sample.on_the_dot =
     [Log DEBUG "PAST:   {} start time of {} is before now {} and before {}";
      Log INFO "Created {} timers.";
      Log INFO "The current time of day is {}"]).
Proof. repeat split; reflexivity. Qed.

(** C4. A marker whose stored timestamp is dated before today gets an update
    posted that carries today's date with the marker's time of day; within
    the marker's pass the update comes first, before the branch that may
    check a timer for it.  The trigger time the branch is chosen by is
    today's date with the marker's time of day. *)
Theorem stale_marker_corrected
    (pre post : list string) (i : string) (cur : Value) (w : World)
    (Hcur : assoc ETOD_ITEM (items w) = Some cur)
    (Hdt : forallb (is_datetime w) (pre ++ i :: post) = true)
    (Hstale : toLocalDate (stored_time w i) < toLocalDate (clock w)) :
  toLocalDate (trigger_time w i) = toLocalDate (clock w) /\
  toLocalTime (trigger_time w i) = toLocalTime (stored_time w i) /\
  (exists (mr : ZonedDateTime * Value) (after : list Event),
      emitted (create_timers (pre ++ i :: post)) w =
        loop_events (clock w) w pre (minusDays (clock w) 1, cur)
        ++ [Log DEBUG "Item {} is yesterday, updating to today";
            PostUpdate i (VDateTime (trigger_time w i))]
        ++ branch_events w i (classify (clock w) (fst mr) (trigger_time w i))
        ++ after) /\
  (forall most_recent_time,
      isAfter (trigger_time w i) (clock w) = true ->
      branch_events w i (classify (clock w) most_recent_time (trigger_time w i)) =
        [Log DEBUG "FUTURE: {} Scheduleing Timer for {}";
         TimerCheck (get_value w i) (trigger_time w i)
           (CbTransition (get_value w i))]).
Proof.
  split; [apply trigger_time_date|].
  split; [apply trigger_time_time|].
  split.
  - exists (loop_acc (clock w) w pre (minusDays (clock w) 1, cur)).
    eexists.
    rewrite (create_timers_emitted _ cur w Hcur Hdt).
    rewrite loop_events_app. simpl.
    unfold iter_events at 1, correction_events, iter_branch.
    rewrite (stale_before_trigger w i Hstale).
    rewrite <- !app_assoc. simpl. reflexivity.
  - intros mrt Hfut.
    now rewrite (proj2 (classify_future (clock w) mrt _) Hfut).
Qed.

(** Night still carries yesterday's date at 05:00: the update to today
    20:00 is posted before the NIGHT timer is checked. *)
Lemma stale_marker_corrected_witness :
  toLocalDate (trigger_time Sample.early "Night") =
    toLocalDate (clock Sample.early) /\
  toLocalTime (trigger_time Sample.early "Night") =
    toLocalTime (stored_time Sample.early "Night") /\
  emitted (create_timers ["Morning"; "Night"]) Sample.early =
    [Log DEBUG "FUTURE: {} Scheduleing Timer for {}";
     TimerCheck (VStr "DAY") (Sample.at_time Sample.day0 6 0)
       (CbTransition (VStr "DAY"));
     Log DEBUG "Item {} is yesterday, updating to today";
     PostUpdate "Night" (VDateTime (Sample.at_time Sample.day0 20 0));
     Log DEBUG "FUTURE: {} Scheduleing Timer for {}";
     TimerCheck (VStr "NIGHT") (Sample.at_time Sample.day0 20 0)
       (CbTransition (VStr "NIGHT"));
     Log INFO "Created {} timers.";
     Log INFO "The current time of day is {}"].
Proof.
  destruct (stale_marker_corrected ["Morning"] [] "Night" (VStr "NIGHT")
              Sample.early eq_refl eq_refl eq_refl)
    as (Hdate & Htime & _ & _).
  split; [exact Hdate|]. split; [exact Htime|]. reflexivity.
Defined.

(** ** Calls that leave the items, the metadata and the clock alone *)

Lemma frames_refl (w : World) : frames w w.
Proof.
  repeat split. exists []. now rewrite app_nil_r.
Qed.

Lemma frames_trans (w1 w2 w3 : World) :
  frames w1 w2 -> frames w2 w3 -> frames w1 w3.
Proof.
  intros (I1 & M1 & C1 & es1 & T1) (I2 & M2 & C2 & es2 & T2).
  repeat split; try congruence.
  exists (es1 ++ es2). now rewrite T2, T1, app_assoc.
Qed.

Lemma framed_ret {A} (a : A) : framed (ret a).
Proof. intros w. apply frames_refl. Qed.

Lemma framed_raise {A} (e : Exn) : framed (@raise A e).
Proof. intros w. apply frames_refl. Qed.

Lemma framed_get : framed get.
Proof. intros w. apply frames_refl. Qed.

Lemma framed_tell (e : Event) : framed (tell e).
Proof. intros w. simpl. repeat split. now exists [e]. Qed.

Lemma framed_bind {A B} (m : M A) (k : A -> M B) :
  framed m -> (forall a, framed (k a)) -> framed (bind m k).
Proof.
  intros Hm Hk w. unfold bind. specialize (Hm w).
  destruct (m w) as [[a|e] w1]; simpl in *.
  - eapply frames_trans; [exact Hm|apply Hk].
  - exact Hm.
Qed.

Lemma framed_log_traceback {A} (d : A) (m : M A) :
  framed m -> framed (log_traceback d m).
Proof.
  intros Hm w. unfold log_traceback. specialize (Hm w).
  destruct (m w) as [[a|e] w1]; simpl in *; [exact Hm|].
  eapply frames_trans; [exact Hm|].
  repeat split. now eexists [_].
Qed.

Lemma framed_timers_check (k : Value) (t : ZonedDateTime) (f : Callback) :
  framed (timers_check k t f).
Proof. intros w. simpl. repeat split. now eexists [_]. Qed.

Lemma framed_timers_cancel (k : Value) : framed (timers_cancel k).
Proof. intros w. simpl. repeat split. now eexists [_]. Qed.

Lemma framed_timers_cancel_all : framed timers_cancel_all.
Proof. intros w. simpl. repeat split. now eexists [_]. Qed.

Lemma framed_for_each {A S} (body : A -> S -> M S) (l : list A) :
  (forall a s, framed (body a s)) -> forall s, framed (for_each l body s).
Proof.
  intros Hb. induction l as [|a l IH]; intros s; simpl.
  - apply framed_ret.
  - apply framed_bind; [apply Hb|exact IH].
Qed.

Lemma framed_filterM {A} (p : A -> M bool) (l : list A) :
  (forall a, framed (p a)) -> framed (filterM p l).
Proof.
  intros Hp. induction l as [|a l IH]; simpl.
  - apply framed_ret.
  - apply framed_bind; [apply Hp|]. intros b.
    apply framed_bind; [exact IH|]. intros r. apply framed_ret.
Qed.

Lemma framed_items_get (name : string) : framed (items_get name).
Proof.
  unfold items_get. apply framed_bind; [apply framed_get|].
  intros w. destruct (assoc name (items w));
    [apply framed_ret|apply framed_raise].
Qed.

Lemma framed_to_datetime (v : Value) : framed (to_datetime v).
Proof. destruct v; simpl; try apply framed_raise. apply framed_ret. Qed.

Ltac framed_step :=
  first
    [ apply framed_ret | apply framed_raise | apply framed_get
    | apply framed_tell | apply framed_items_get | apply framed_to_datetime
    | apply framed_timers_check | apply framed_timers_cancel
    | apply framed_timers_cancel_all
    | apply framed_log_traceback
    | apply framed_bind; [|intros ?]
    | match goal with
      | |- framed (if ?b then _ else _) => destruct b
      | |- framed (match ?x with _ => _ end) => destruct x
      end ].

Ltac framed_auto :=
  unfold log, sendCommand, postUpdate, ZonedDateTime_now,
    send_command_if_different, to_today;
  repeat framed_step.

Lemma framed_create_timers_iter (now : ZonedDateTime) (i : string)
    (mr : ZonedDateTime * Value) : framed (create_timers_iter now i mr).
Proof. unfold create_timers_iter. framed_auto. Qed.

Lemma framed_create_timers (l : list string) : framed (create_timers l).
Proof.
  unfold create_timers, create_timers_body, create_timers_loop.
  apply framed_log_traceback.
  apply framed_bind; [framed_auto|]. intros now.
  apply framed_bind; [framed_auto|]. intros cur.
  apply framed_bind.
  - apply framed_for_each. intros a s. apply framed_create_timers_iter.
  - intros mr. framed_auto.
Qed.

Lemma create_timers_returns (l : list string) (w : World) :
  result (create_timers l) w = Ret tt.
Proof.
  unfold result, create_timers, log_traceback.
  destruct (create_timers_body l w) as [[[]|e] w1]; reflexivity.
Qed.

Lemma framed_null_items (l : list string) : framed (null_items l).
Proof.
  unfold null_items. apply framed_filterM. intros a. framed_auto.
Qed.

(** ** Reading the items changes nothing *)

Lemma null_items_world (l : list string) (w : World) :
  snd (null_items l w) = w.
Proof.
  unfold null_items. induction l as [|i l IH]; simpl; [reflexivity|].
  unfold bind at 1. unfold bind at 1. unfold items_get at 1. mrun.
  destruct (assoc i (items w)) as [v|]; [|reflexivity].
  cbv beta iota.
  destruct (filterM _ l w) as [[r|e] w1] eqn:E; simpl in *; now subst.
Qed.

Lemma filterM_cons {A} (p : A -> M bool) (x : A) (l : list A) (b : bool)
    (w : World) :
  p x w = (Ret b, w) ->
  filterM p (x :: l) w =
    match filterM p l w with
    | (Ret r, w') => (Ret (if b then x :: r else r), w')
    | (Raise e, w') => (Raise e, w')
    end.
Proof.
  intros H. simpl. unfold bind at 1. rewrite H. unfold bind at 1.
  destruct (filterM p l w) as [[r|e] w']; reflexivity.
Qed.

Lemma null_items_datetime (l : list string) (w : World) :
  forallb (is_datetime w) l = true -> null_items l w = (Ret [], w).
Proof.
  unfold null_items. induction l as [|i l IH]; [reflexivity|].
  intros H. simpl in H. apply andb_prop in H. destruct H as [Hi Hl].
  rewrite (filterM_cons _ i l false w).
  - now rewrite (IH Hl).
  - unfold bind.
    now rewrite (items_get_some _ _ _ (is_datetime_stored _ _ Hi)).
Qed.

(** ** The phases of ephem_tod *)

Lemma kick_off_init_run (h : Host) (l : list string) (w : World) :
  kick_off_init h l w =
    match null_items l w with
    | (Ret nulls, w') =>
        if truthy nulls && mem "InitItems" (keys (items w'))
        then (Ret tt, init_world h w') else (Ret tt, w')
    | (Raise e, w') => (Raise e, w')
    end.
Proof.
  unfold kick_off_init. unfold bind at 1. cbv beta.
  destruct (null_items l w) as [[n|e] w1]; [|reflexivity].
  mrun.
  destruct (truthy n && mem "InitItems" (keys (items w1))); [|reflexivity].
  unfold sleep, init_world, kick_events, emit. simpl.
  rewrite <- ?app_assoc. reflexivity.
Qed.

Lemma kick_off_init_cases (h : Host) (l : list string) (w : World) :
  (exists e, kick_off_init h l w = (Raise e, w)) \/
  kick_off_init h l w = (Ret tt, w) \/
  kick_off_init h l w = (Ret tt, init_world h w).
Proof.
  rewrite kick_off_init_run.
  pose proof (null_items_world l w) as Hw.
  destruct (null_items l w) as [[n|e] w1]; simpl in Hw; subst w1.
  - destruct (truthy n && mem "InitItems" (keys (items w))); auto.
  - left. now exists e.
Qed.

Lemma kick_off_init_datetime (h : Host) (l : list string) (w : World) :
  forallb (is_datetime w) l = true -> kick_off_init h l w = (Ret tt, w).
Proof.
  intros H. rewrite kick_off_init_run.
  now rewrite (null_items_datetime l w H).
Qed.

(** The tail of [schedule_all], after [create_timers] has returned. *)
Lemma reload_run (z : Zone.ZoneRules) (w : World) :
  (now <- ZonedDateTime_now ;;
   let reload_time :=
     Zone.withNano z 0 (Zone.withSecond z 0 (Zone.withMinute z 2 (Zone.withHour z 0 now))) in
   reload_time <-
     (if isBefore reload_time now then
        let reload_time := Zone.plusDays z reload_time 1 in
        log INFO "Creating reload timer for {}" ;;
        ret reload_time
      else ret reload_time) ;;
   timers_check (VStr "etod_reload") reload_time CbReload) w =
  (Ret tt,
   mkWorld (items w) (metadata w)
     (TimerMgr.check RELOAD_KEY (reload_time_of z (clock w)) CbReload (timers w))
     (clock w)
     (trace w ++ reload_log z (clock w)
        ++ [TimerCheck RELOAD_KEY (reload_time_of z (clock w)) CbReload])).
Proof.
  unfold ZonedDateTime_now, timers_check, reload_time_of, reload_log,
    today_0002. mrun.
  destruct (isBefore _ (clock w)); unfold emit, set_timers;
    cbn [items metadata timers clock trace];
    rewrite <- ?app_assoc; reflexivity.
Qed.

Lemma schedule_all_run (z : Zone.ZoneRules) (l : list string) (w : World) :
  exists tm es,
    schedule_all z l w =
      (Ret tt,
       mkWorld (items w) (metadata w)
         (TimerMgr.check RELOAD_KEY (reload_time_of z (clock w)) CbReload tm)
         (clock w)
         (trace w ++ TimerCancelAll :: es
            ++ [TimerCheck RELOAD_KEY (reload_time_of z (clock w)) CbReload])).
Proof.
  unfold schedule_all. unfold bind at 1. unfold timers_cancel_all at 1.
  cbv beta iota. unfold bind at 1. cbv beta.
  set (w1 := emit TimerCancelAll (set_timers (TimerMgr.cancel_all (timers w)) w)).
  pose proof (create_timers_returns l w1) as Hr.
  pose proof (framed_create_timers l w1) as (Hi & Hm & Hc & es & Ht).
  unfold result in Hr.
  destruct (create_timers l w1) as [r w2]; simpl in *. subst r.
  rewrite reload_run. rewrite Hi, Hm, Hc, Ht.
  exists (timers w2), (es ++ reload_log z (clock w)).
  rewrite <- !app_assoc. reflexivity.
Qed.

(** After the grace period: the second check for NULL and what follows. *)
Lemma recheck_cases (z : Zone.ZoneRules) (l : list string) (w : World) :
  let m := (nulls <- null_items l ;;
            if truthy nulls then log ERROR STILL_NULL else schedule_all z l) in
  (exists e, m w = (Raise e, w)) \/
  m w = (Ret tt, emit (Log ERROR STILL_NULL) w) \/
  m w = schedule_all z l w.
Proof.
  intros m. unfold m. unfold bind. 
  pose proof (null_items_world l w) as Hw.
  destruct (null_items l w) as [[n|e] w1]; simpl in Hw; subst w1.
  - destruct (truthy n); auto.
  - left. now exists e.
Qed.

Lemma ephem_tod_run (h : Host) (w : World) :
  ephem_tod h w =
    match choose_day_type (start_times h w) with
    | Some d =>
        let w1 :=
          emit (Log INFO "Today is a {} day, there are {} time periods today.")
            (emit (Log INFO "Recalculating time of day") w) in
        match start_times h w d with
        | x :: l =>
            match kick_off_init h (x :: l) w1 with
            | (Ret _, w2) =>
                (nulls <- null_items (x :: l) ;;
                 if truthy nulls then log ERROR STILL_NULL
                 else schedule_all (zone h) (x :: l)) w2
            | (Raise e, w2) => (Raise e, w2)
            end
        | [] => (Ret tt, emit (Log ERROR NO_START_TIMES) w1)
        end
    | None =>
        (Ret tt,
         emit (Log ERROR NO_START_TIMES)
           (emit (Log ERROR "Traceback (most recent call last)")
              (emit (Log INFO "Recalculating time of day") w)))
    end.
Proof.
  unfold ephem_tod. unfold bind at 1. unfold log at 1, tell. cbv beta iota.
  unfold bind at 1. cbv beta. rewrite get_times_run.
  change (start_times h (emit (Log INFO "Recalculating time of day") w))
    with (start_times h w).
  destruct (choose_day_type (start_times h w)) as [d|]; [|reflexivity].
  cbv zeta. destruct (start_times h w d) as [|x l]; [reflexivity|].
  cbv iota. unfold bind at 1. reflexivity.
Qed.

(** The four ways a run of [ephem_tod] ends; [k] is what the kick-off of
    the init rule added to the trace, if it happened. *)
Lemma ephem_tod_cases (h : Host) (w : World) :
  exists k, (k = [] \/ k = kick_events) /\
  (ephem_tod h w =
     (Ret tt,
      mkWorld (items w) (metadata w) (timers w) (clock w)
        (trace w ++ [Log INFO "Recalculating time of day";
                     Log ERROR "Traceback (most recent call last)";
                     Log ERROR NO_START_TIMES]))
   \/
   (exists e w',
       ephem_tod h w = (Raise e, w') /\ timers w' = timers w /\
       trace w' =
         trace w ++ [Log INFO "Recalculating time of day";
                     Log INFO "Today is a {} day, there are {} time periods today."]
                 ++ k)
   \/
   (exists w',
       ephem_tod h w = (Ret tt, w') /\ timers w' = timers w /\
       trace w' =
         trace w ++ [Log INFO "Recalculating time of day";
                     Log INFO "Today is a {} day, there are {} time periods today."]
                 ++ k ++ [Log ERROR STILL_NULL])
   \/
   (exists w' tm es,
       ephem_tod h w = (Ret tt, w') /\
       timers w' =
         TimerMgr.check RELOAD_KEY (reload_time_of (zone h) (clock w')) CbReload tm /\
       trace w' =
         trace w ++ [Log INFO "Recalculating time of day";
                     Log INFO "Today is a {} day, there are {} time periods today."]
                 ++ k ++ TimerCancelAll :: es
                 ++ [TimerCheck RELOAD_KEY (reload_time_of (zone h) (clock w')) CbReload])).
Proof.
  rewrite ephem_tod_run.
  destruct (choose_day_type (start_times h w)) as [d|] eqn:E.
  2:{ exists []. split; [now left|]. left. unfold emit. simpl.
      now rewrite <- !app_assoc. }
  destruct (choose_day_type_some _ _ E) as [Hne _].
  destruct (start_times h w d) as [|x l]; [congruence|]. clear Hne E.
  cbv zeta.
  set (w1 := emit (Log INFO "Today is a {} day, there are {} time periods today.")
               (emit (Log INFO "Recalculating time of day") w)).
  assert (T1 : trace w1 =
               trace w ++ [Log INFO "Recalculating time of day";
                           Log INFO "Today is a {} day, there are {} time periods today."])
    by (unfold w1, emit; simpl; now rewrite <- app_assoc).
  destruct (kick_off_init_cases h (x :: l) w1) as [[e K]|[K|K]]; rewrite K.
  - exists []. split; [now left|]. right. left. exists e, w1.
    rewrite app_nil_r. auto.
  - exists []. split; [now left|]. right. simpl app.
    destruct (recheck_cases (zone h) (x :: l) w1) as [[e R]|[R|R]];
      cbv zeta in R; rewrite R.
    + left. exists e, w1. auto.
    + right. left. eexists. split; [reflexivity|]. split; [reflexivity|].
      rewrite trace_emit, T1. now rewrite <- app_assoc.
    + right. right.
      destruct (schedule_all_run (zone h) (x :: l) w1) as (tm & es & S).
      rewrite S. eexists. exists tm, es. split; [reflexivity|].
      split; [reflexivity|]. cbn [trace clock].
      rewrite T1. now rewrite <- app_assoc.
  - exists kick_events. split; [now right|]. right.
    set (w2 := init_world h w1).
    assert (T2 : trace w2 =
                 trace w ++ [Log INFO "Recalculating time of day";
                             Log INFO "Today is a {} day, there are {} time periods today."]
                         ++ kick_events)
      by (unfold w2, init_world; cbn [trace]; rewrite T1;
          now rewrite <- app_assoc).
    destruct (recheck_cases (zone h) (x :: l) w2) as [[e R]|[R|R]];
      cbv zeta in R; rewrite R.
    + left. exists e, w2. auto.
    + right. left. eexists. split; [reflexivity|]. split; [reflexivity|].
      rewrite trace_emit, T2. now rewrite <- !app_assoc.
    + right. right.
      destruct (schedule_all_run (zone h) (x :: l) w2) as (tm & es & S).
      rewrite S. eexists. exists tm, es. split; [reflexivity|].
      split; [reflexivity|]. cbn [trace clock].
      rewrite T2. now rewrite <- !app_assoc.
Qed.

(** ** The timer registry *)

Lemma value_eqb_refl (k : Value) : value_eqb k k = true.
Proof. now apply value_eqb_eq. Qed.

Lemma lookup_check (k : Value) (t : ZonedDateTime) (f : Callback)
    (r : TimerMgr.t) :
  TimerMgr.lookup k (TimerMgr.check k t f r) = Some (t, f).
Proof.
  unfold TimerMgr.lookup, TimerMgr.check, TimerMgr.cancel.
  induction r as [|[k' tf] r IH]; simpl.
  - now rewrite value_eqb_refl.
  - destruct (value_eqb k k') eqn:E; simpl; [exact IH|].
    rewrite E. exact IH.
Qed.

Lemma not_in_kick : ~ In TimerCancelAll kick_events.
Proof. simpl. intros [H|[H|[H|[]]]]; discriminate. Qed.

(** ** ephem_tod: the reload timer *)

(** Before its one transition, the sample zone skips nothing and keeps the
    offset of the time line. *)
Lemma spring_forward_valid (ldt : Z) :
  ldt < Sample.at_time (Sample.day0 + 1) 0 0 ->
  Zone.valid Cases.spring_forward ldt.
Proof.
  intros Hlt preferred.
  unfold Zone.toLocalDateTime, Zone.ofLocal, Zone.getOffset, Cases.spring_forward.
  cbn [Zone.initial Zone.transitions Zone.ofLocal_from Zone.offset_from].
  change (Z.min 0 NANOS_PER_HOUR) with 0.
  rewrite Z.add_0_r. rewrite (proj2 (Z.ltb_lt _ _) Hlt).
  rewrite Z.sub_0_r. rewrite (proj2 (Z.ltb_lt _ _) Hlt). lia.
Qed.

Lemma spring_forward_steady (lo hi : Z) :
  hi < Sample.at_time (Sample.day0 + 1) 0 0 ->
  Zone.steady Cases.spring_forward 0 lo hi.
Proof.
  intros Hhi. split.
  - intros t Ht. unfold Zone.getOffset, Cases.spring_forward.
    cbn [Zone.initial Zone.transitions Zone.offset_from].
    now rewrite (proj2 (Z.ltb_lt _ _)) by lia.
  - intros ldt preferred Hl.
    unfold Zone.ofLocal, Cases.spring_forward.
    cbn [Zone.initial Zone.transitions Zone.ofLocal_from].
    change (Z.min 0 NANOS_PER_HOUR) with 0.
    rewrite Z.add_0_r. now rewrite (proj2 (Z.ltb_lt _ _)) by lia.
Qed.

(** C5 as stated fails where the zone skips 00:02:00.  The rule runs at
    23:00 on the eve of a day whose clocks are set forward from 00:00 to
    01:00: 00:02:00 of that day does not exist, [plusDays] resolves it one
    hour later, and the reload timer's target reads 01:02:00. *)
Lemma reload_in_gap_counterexample :
  reaches_scheduling Cases.host_spring Cases.eve /\
  Zone.toLocalTime Cases.spring_forward (clock Cases.eve) = hms 23 0 0 /\
  exists reload_time,
    filter is_timer_event (emitted (ephem_tod Cases.host_spring) Cases.eve) =
      [TimerCancelAll; TimerCheck (VStr "etod_reload") reload_time CbReload] /\
    Zone.toLocalDate Cases.spring_forward reload_time = Sample.day0 + 1 /\
    Zone.toLocalTime Cases.spring_forward reload_time = hms 1 2 0 /\
    Zone.toLocalTime Cases.spring_forward reload_time <> hms 0 2 0.
Proof.
  split.
  - unfold reaches_scheduling. vm_compute. right. right. now left.
  - split; [vm_compute; reflexivity|].
    exists (Sample.at_time (Sample.day0 + 1) 0 2).
    repeat split; vm_compute; congruence.
Qed.

(** C5, as the code has it.  A run of [ephem_tod] that reaches scheduling
    ends by checking the reload timer, which is then in the registry.  Where
    the zone skips no local time of the first hour of today and does not
    skip 00:02:00 of tomorrow, the target reads 00:02:00: of the following
    day when today's 00:02:00 is already past, of the same day when it is
    not.  Today's 00:02:00 is the instant of line 233, which reads 00:02:00
    of today; where it has the offset now has, it is past exactly when the
    wall clock shows a time after 00:02:00. *)
Theorem reload_timer_target (h : Host) (w : World)
    (Hreach : reaches_scheduling h w)
    (Hhour : forall ldt,
        toLocalDate ldt =
          Zone.toLocalDate (zone h) (clock (exec (ephem_tod h) w)) ->
        toLocalTime ldt < NANOS_PER_HOUR ->
        Zone.valid (zone h) ldt)
    (Hnext : Zone.valid (zone h)
               (atDate (Zone.toLocalDate (zone h) (clock (exec (ephem_tod h) w)) + 1)
                       (hms 0 2 0))) :
  result (ephem_tod h) w = Ret tt /\
  exists reload_time before,
    emitted (ephem_tod h) w =
      before ++ [TimerCheck (VStr "etod_reload") reload_time CbReload] /\
    TimerMgr.lookup (VStr "etod_reload") (timers (exec (ephem_tod h) w)) =
      Some (reload_time, CbReload) /\
    Zone.toLocalTime (zone h) reload_time = hms 0 2 0 /\
    (today_0002 (zone h) (clock (exec (ephem_tod h) w))
       < clock (exec (ephem_tod h) w) ->
     Zone.toLocalDate (zone h) reload_time =
       Zone.toLocalDate (zone h) (clock (exec (ephem_tod h) w)) + 1) /\
    (clock (exec (ephem_tod h) w)
       <= today_0002 (zone h) (clock (exec (ephem_tod h) w)) ->
     Zone.toLocalDate (zone h) reload_time =
       Zone.toLocalDate (zone h) (clock (exec (ephem_tod h) w))) /\
    Zone.toLocalDateTime (zone h)
      (today_0002 (zone h) (clock (exec (ephem_tod h) w))) =
      atDate (Zone.toLocalDate (zone h) (clock (exec (ephem_tod h) w)))
             (hms 0 2 0) /\
    (Zone.getOffset (zone h) (today_0002 (zone h) (clock (exec (ephem_tod h) w))) =
       Zone.getOffset (zone h) (clock (exec (ephem_tod h) w)) ->
     (today_0002 (zone h) (clock (exec (ephem_tod h) w))
        < clock (exec (ephem_tod h) w) <->
      hms 0 2 0 < Zone.toLocalTime (zone h) (clock (exec (ephem_tod h) w)))).
Proof.
  unfold reaches_scheduling in Hreach.
  destruct (ephem_tod_cases h w)
    as (k & Hk & [E | [(e & w' & E & _ & T) | [(w' & E & _ & T)
                      | (w' & tm & es & E & Htm & T)]]]).
  - exfalso. rewrite (emitted_app (ephem_tod h) w _) in Hreach
      by (unfold exec; now rewrite E).
    simpl in Hreach. destruct Hreach as [H|[H|[H|[]]]]; discriminate.
  - exfalso. rewrite (emitted_app (ephem_tod h) w _) in Hreach
      by (unfold exec; rewrite E; exact T).
    simpl in Hreach. destruct Hreach as [H|[H|H]]; try discriminate.
    destruct Hk as [-> | ->]; [destruct H|now apply not_in_kick].
  - exfalso. rewrite (emitted_app (ephem_tod h) w _) in Hreach
      by (unfold exec; rewrite E; exact T).
    simpl in Hreach. destruct Hreach as [H|[H|H]]; try discriminate.
    apply in_app_or in H. destruct H as [H|[H|[]]]; [|discriminate].
    destruct Hk as [-> | ->]; [destruct H|now apply not_in_kick].
  - unfold result, exec in *. rewrite E in *. simpl fst. simpl snd in *.
    split; [reflexivity|].
    pose proof (today_0002_local (zone h) (clock w') Hhour) as Hr.
    destruct (reload_time_of_local (zone h) (clock w') Hhour Hnext)
      as [Hpast Hnot].
    exists (reload_time_of (zone h) (clock w')).
    exists ([Log INFO "Recalculating time of day";
             Log INFO "Today is a {} day, there are {} time periods today."]
            ++ k ++ TimerCancelAll :: es).
    split.
    { apply emitted_app. unfold exec. rewrite E. simpl snd. rewrite T.
      f_equal. now rewrite <- !app_assoc. }
    split; [rewrite Htm; apply lookup_check|].
    assert (Htod : Zone.toLocalTime (zone h) (reload_time_of (zone h) (clock w'))
                   = hms 0 2 0).
    { unfold Zone.toLocalTime.
      destruct (Z.lt_ge_cases (today_0002 (zone h) (clock w')) (clock w'))
        as [Hlt|Hge].
      - rewrite (Hpast Hlt). apply atDate_time. time_arith.
      - rewrite (Hnot Hge), Hr. apply atDate_time. time_arith. }
    split; [exact Htod|].
    split; [|split; [|split]].
    + intros Hlt. unfold Zone.toLocalDate at 1. rewrite (Hpast Hlt).
      apply atDate_date. time_arith.
    + intros Hge. unfold Zone.toLocalDate at 1. rewrite (Hnot Hge), Hr.
      apply atDate_date. time_arith.
    + exact Hr.
    + intros Hoff. rewrite (same_offset_order _ _ _ Hoff), Hr.
      unfold Zone.toLocalTime, Zone.toLocalDate. time_arith.
Qed.

(** A run at 14:00, two days before the clocks of the zone are set
    forward, sets the reload timer to 00:02:00 of the next day. *)
Lemma reload_timer_target_witness :
  reaches_scheduling Cases.host_spring Cases.day_before /\
  exists reload_time before,
    emitted (ephem_tod Cases.host_spring) Cases.day_before =
      before ++ [TimerCheck (VStr "etod_reload") reload_time CbReload] /\
    TimerMgr.lookup (VStr "etod_reload")
      (timers (exec (ephem_tod Cases.host_spring) Cases.day_before)) =
      Some (reload_time, CbReload) /\
    Zone.toLocalTime Cases.spring_forward reload_time = hms 0 2 0 /\
    Zone.toLocalDate Cases.spring_forward reload_time = Sample.day0.
Proof.
  assert (Hreach : reaches_scheduling Cases.host_spring Cases.day_before).
  { unfold reaches_scheduling. vm_compute. right. right. now left. }
  split; [exact Hreach|].
  assert (Hday : Zone.toLocalDate (zone Cases.host_spring)
                   (clock (exec (ephem_tod Cases.host_spring) Cases.day_before))
                 = Sample.day0 - 1) by (vm_compute; reflexivity).
  assert (Hhour : forall ldt,
             toLocalDate ldt =
               Zone.toLocalDate (zone Cases.host_spring)
                 (clock (exec (ephem_tod Cases.host_spring) Cases.day_before)) ->
             toLocalTime ldt < NANOS_PER_HOUR ->
             Zone.valid (zone Cases.host_spring) ldt).
  { intros ldt Hd _. rewrite Hday in Hd. apply spring_forward_valid.
    revert Hd. unfold Sample.at_time, Sample.day0. time_arith. }
  assert (Hnext : Zone.valid (zone Cases.host_spring)
                    (atDate (Zone.toLocalDate (zone Cases.host_spring)
                               (clock (exec (ephem_tod Cases.host_spring)
                                         Cases.day_before)) + 1)
                            (hms 0 2 0))).
  { rewrite Hday. apply spring_forward_valid. vm_compute. reflexivity. }
  destruct (reload_timer_target Cases.host_spring Cases.day_before
              Hreach Hhour Hnext)
    as (_ & reload_time & before & Hem & Hlook & Htod & Hpast & _).
  exists reload_time, before.
  split; [exact Hem|]. split; [exact Hlook|]. split; [exact Htod|].
  assert (Hlt : today_0002 (zone Cases.host_spring)
                  (clock (exec (ephem_tod Cases.host_spring) Cases.day_before))
                < clock (exec (ephem_tod Cases.host_spring) Cases.day_before))
    by (vm_compute; reflexivity).
  pose proof (Hpast Hlt) as Hd. rewrite Hday in Hd. exact Hd.
Defined.

(** The two instants of the specification, in a zone without transitions:
    a run at 23:00 reloads at 00:02:00 the following day, a run at 00:01:00
    at 00:02:00 the same day. *)
Example reload_time_of_2300 :
  reload_time_of Zone.UTC (atDate Sample.day0 (hms 23 0 0)) =
  atDate (Sample.day0 + 1) (hms 0 2 0).
Proof. reflexivity. Qed.

Example reload_time_of_0001 :
  reload_time_of Zone.UTC (atDate Sample.day0 (hms 0 1 0)) =
  atDate Sample.day0 (hms 0 2 0).
Proof. reflexivity. Qed.

(** ** ephem_tod: aborting runs *)

Lemma aborts_last (h : Host) (w : World) (before : list Event) (e : Event) :
  emitted (ephem_tod h) w = before ++ [e] ->
  aborts h w ->
  e = Log ERROR NO_START_TIMES \/ e = Log ERROR STILL_NULL.
Proof.
  intros E [pre [H|H]]; rewrite E in H; apply app_inj_tail in H;
    destruct H as [_ ->]; auto.
Qed.

(** C7, as the code has it.  A run of [ephem_tod] that aborts returns
    without touching the timer registry: it makes no timer call, posts no
    update and sends no command to the TimeOfDay Item.  Besides log lines,
    the only calls it may have made are the command ON to InitItems and the
    sleep that follows it. *)
Theorem abort_leaves_timers (h : Host) (w : World) (Hab : aborts h w) :
  result (ephem_tod h) w = Ret tt /\
  timers (exec (ephem_tod h) w) = timers w /\
  Forall (fun e => is_log e = true \/
                   e = SendCommand "InitItems" (VStr "ON") \/
                   e = Sleep 5)
         (emitted (ephem_tod h) w).
Proof.
  destruct (ephem_tod_cases h w)
    as (k & Hk & [E | [(e & w' & E & Htm & T) | [(w' & E & Htm & T)
                      | (w' & tm & es & E & Htm & T)]]]).
  - unfold result, exec. rewrite E. simpl.
    split; [reflexivity|]. split; [reflexivity|].
    rewrite (emitted_app (ephem_tod h) w _) by (unfold exec; now rewrite E).
    repeat (apply Forall_cons; [left; reflexivity|]). apply Forall_nil.
  - exfalso.
    assert (Hem : emitted (ephem_tod h) w =
                  [Log INFO "Recalculating time of day";
                   Log INFO "Today is a {} day, there are {} time periods today."]
                  ++ k)
      by (apply emitted_app; unfold exec; rewrite E; exact T).
    destruct Hk as [-> | ->].
    + destruct (aborts_last h w [Log INFO "Recalculating time of day"] _ Hem Hab);
        discriminate.
    + destruct (aborts_last h w
                  [Log INFO "Recalculating time of day";
                   Log INFO "Today is a {} day, there are {} time periods today.";
                   Log WARN "The following Items are are NULL/UNDEF, kicking off initialization using item_init: {}";
                   SendCommand "InitItems" (VStr "ON")] _ Hem Hab);
        discriminate.
  - unfold result, exec. rewrite E. simpl fst. simpl snd.
    split; [reflexivity|]. split; [exact Htm|].
    rewrite (emitted_app (ephem_tod h) w _) by (unfold exec; rewrite E; exact T).
    destruct Hk as [-> | ->]; unfold kick_events; simpl;
      repeat (apply Forall_cons;
              [first [left; reflexivity | right; left; reflexivity
                     | right; right; reflexivity]|]);
      apply Forall_nil.
  - exfalso.
    assert (Hem : emitted (ephem_tod h) w =
                  ([Log INFO "Recalculating time of day";
                    Log INFO "Today is a {} day, there are {} time periods today."]
                   ++ k ++ TimerCancelAll :: es)
                  ++ [TimerCheck RELOAD_KEY (reload_time_of (zone h) (clock w')) CbReload]).
    { apply emitted_app. unfold exec. rewrite E. simpl snd. rewrite T.
      f_equal. now rewrite <- !app_assoc. }
    destruct (aborts_last h w _ _ Hem Hab); discriminate.
Qed.

(** Night is NULL, the init rule is kicked off and changes nothing: the run
    aborts with the timers of the earlier cycle in place. *)
Lemma abort_leaves_timers_witness :
  aborts Sample.host Sample.night_null /\
  result (ephem_tod Sample.host) Sample.night_null = Ret tt /\
  timers (exec (ephem_tod Sample.host) Sample.night_null) =
    timers Sample.night_null /\
  Forall (fun e => is_log e = true \/
                   e = SendCommand "InitItems" (VStr "ON") \/
                   e = Sleep 5)
         (emitted (ephem_tod Sample.host) Sample.night_null).
Proof.
  assert (Hab : aborts Sample.host Sample.night_null).
  { exists [Log INFO "Recalculating time of day";
            Log INFO "Today is a {} day, there are {} time periods today.";
            Log WARN "The following Items are are NULL/UNDEF, kicking off initialization using item_init: {}";
            SendCommand "InitItems" (VStr "ON");
            Sleep 5].
    right. vm_compute. reflexivity. }
  split; [exact Hab|].
  exact (abort_leaves_timers Sample.host Sample.night_null Hab).
Defined.

(** C7 as stated fails: a run that aborts because a marker is still NULL
    after the grace period has, before returning, sent the command ON to
    InitItems. *)
Lemma abort_sends_command_counterexample :
  emitted (ephem_tod Sample.host) Sample.night_null =
    [Log INFO "Recalculating time of day";
     Log INFO "Today is a {} day, there are {} time periods today.";
     Log WARN "The following Items are are NULL/UNDEF, kicking off initialization using item_init: {}";
     SendCommand "InitItems" (VStr "ON");
     Sleep 5;
     Log ERROR STILL_NULL] /\
  In (SendCommand "InitItems" (VStr "ON"))
     (emitted (ephem_tod Sample.host) Sample.night_null).
Proof.
  split; [vm_compute; reflexivity|].
  vm_compute. right. right. right. now left.
Qed.

(** ** ephem_tod: a cycle that schedules *)

Lemma schedule_all_datetime_run (z : Zone.ZoneRules) (l : list string) (cur : Value) (w : World) :
  assoc ETOD_ITEM (items w) = Some cur ->
  forallb (is_datetime w) l = true ->
  schedule_all z l w =
    (Ret tt,
     mkWorld (items w) (metadata w)
       (TimerMgr.check RELOAD_KEY (reload_time_of z (clock w)) CbReload
          (loop_timers (clock w) w l (minusDays (clock w) 1, cur) []))
       (clock w)
       (trace w ++ TimerCancelAll
          :: loop_events (clock w) w l (minusDays (clock w) 1, cur)
          ++ final_events cur (resolved_state w l cur)
          ++ reload_log z (clock w)
          ++ [TimerCheck RELOAD_KEY (reload_time_of z (clock w)) CbReload])).
Proof.
  intros Hcur Hdt.
  unfold schedule_all. unfold bind at 1. unfold timers_cancel_all at 1.
  cbv beta iota. unfold bind at 1. cbv beta.
  rewrite (create_timers_run l cur
             (emit TimerCancelAll
                (set_timers (TimerMgr.cancel_all (timers w)) w)) Hcur Hdt).
  rewrite reload_run.
  unfold emit, set_timers, resolved_state, TimerMgr.cancel_all.
  cbn [items metadata clock timers trace].
  rewrite loop_acc_store, loop_events_store, loop_timers_store.
  rewrite <- !app_assoc. reflexivity.
Qed.

Lemma ephem_tod_datetime_run (h : Host) (w : World) (l : list string)
    (cur : Value) :
  result (get_times h) w = Ret (Some l) ->
  assoc ETOD_ITEM (items w) = Some cur ->
  forallb (is_datetime w) l = true ->
  ephem_tod h w =
    (Ret tt,
     mkWorld (items w) (metadata w)
       (TimerMgr.check RELOAD_KEY (reload_time_of (zone h) (clock w)) CbReload
          (loop_timers (clock w) w l (minusDays (clock w) 1, cur) []))
       (clock w)
       (trace w
          ++ [Log INFO "Recalculating time of day";
              Log INFO "Today is a {} day, there are {} time periods today."]
          ++ TimerCancelAll
          :: loop_events (clock w) w l (minusDays (clock w) 1, cur)
          ++ final_events cur (resolved_state w l cur)
          ++ reload_log (zone h) (clock w)
          ++ [TimerCheck RELOAD_KEY (reload_time_of (zone h) (clock w)) CbReload])).
Proof.
  intros Hsel Hcur Hdt. rewrite ephem_tod_run.
  unfold result in Hsel. rewrite get_times_run in Hsel.
  destruct (choose_day_type (start_times h w)) as [d|] eqn:E;
    [|discriminate Hsel].
  simpl in Hsel. inversion Hsel as [Hl]. clear Hsel.
  destruct (choose_day_type_some _ _ E) as [Hne _].
  rewrite Hl in *. destruct l as [|x l]; [congruence|].
  cbv zeta.
  set (w1 := emit (Log INFO "Today is a {} day, there are {} time periods today.")
               (emit (Log INFO "Recalculating time of day") w)).
  rewrite (kick_off_init_datetime h (x :: l) w1 Hdt).
  unfold bind. rewrite (null_items_datetime (x :: l) w1 Hdt).
  cbn [truthy].
  rewrite (schedule_all_datetime_run (zone h) (x :: l) cur w1 Hcur Hdt).
  unfold w1, emit, resolved_state.
  cbn [items metadata clock timers trace].
  rewrite loop_acc_store, loop_events_store, loop_timers_store.
  rewrite <- !app_assoc. reflexivity.
Qed.




(** C9. The retirement step of [load_etod] misses what it attempts.
    Reload_ETOD is commanded while Night is NULL: both markers are still
    configured and in scope today, and the registry holds the NIGHT timer
    and the reload timer.  The loop of lines 259-261 compares the names of
    the timers, which are states and "etod_reload", with the names of the
    validated Items, so it cancels both timers; the cycle then aborts and
    the registry stays empty: the timer of a marker still in scope and the
    reload timer are gone. *)
Lemma load_etod_retires_live_timers :
  TimerMgr.lookup (VStr "etod_reload") (timers Sample.night_null) =
    Some (Sample.at_time (Sample.day0 + 1) 0 2, CbReload) /\
  result (get_times Sample.host) Sample.night_null =
    Ret (Some ["Morning"; "Night"]) /\
  result (load_rule_with_metadata) Sample.night_null =
    Ret ["Morning"; "Night"] /\
  result (load_etod Sample.host) Sample.night_null = Ret tt /\
  filter is_timer_event (emitted (load_etod Sample.host) Sample.night_null) =
    [TimerCancel (VStr "NIGHT"); TimerCancel (VStr "etod_reload")] /\
  timers (exec (load_etod Sample.host) Sample.night_null) = [].
Proof. repeat split; vm_compute; reflexivity. Qed.

(** * Further properties *)

(** ** check_config *)

Lemma check_config_run (i : string) (w : World) :
  check_config i w =
    match assoc i (metadata w) with
    | None => (Ret None, emit (Log ERROR "Item {} does not have {} metadata") w)
    | Some cfg =>
        if String.eqb (value cfg) "" then
          (Ret None, emit (Log ERROR "Item {} does not have a value") w)
        else
          match assoc "type" (configuration cfg) with
          | None => (Ret None, emit TRACEBACK w)
          | Some ty =>
              if String.eqb ty "" then
                (Ret None, emit (Log ERROR "Item {} does not have a type") w)
              else if String.eqb ty "dayset" then
                match assoc "set" (configuration cfg) with
                | None => (Ret None, emit TRACEBACK w)
                | Some s =>
                    if String.eqb s "" then
                      (Ret None,
                       emit (Log ERROR "Item {} is of type dayset but doesn't have a set") w)
                    else (Ret (Some cfg), w)
                end
              else if String.eqb ty "custom" then
                match assoc "file" (configuration cfg) with
                | None => (Ret None, emit TRACEBACK w)
                | Some f =>
                    if String.eqb f "" then
                      (Ret None,
                       emit (Log ERROR "Item {} is of type custom but does't have a file") w)
                    else (Ret (Some cfg), w)
                end
              else (Ret (Some cfg), w)
          end
    end.
Proof.
  unfold check_config, log_traceback, config_get, TRACEBACK. mrun.
  destruct (assoc i (metadata w)) as [cfg|]; [|reflexivity].
  destruct (String.eqb (value cfg) ""); [reflexivity|].
  destruct (assoc "type" (configuration cfg)) as [ty|]; [|reflexivity].
  cbv beta iota.
  destruct (String.eqb ty ""); [reflexivity|].
  destruct (String.eqb ty "dayset").
  - destruct (assoc "set" (configuration cfg)) as [s|]; [|reflexivity].
    cbv beta iota. now destruct (String.eqb s "").
  - destruct (String.eqb ty "custom"); [|reflexivity].
    destruct (assoc "file" (configuration cfg)) as [f|]; [|reflexivity].
    cbv beta iota. now destruct (String.eqb f "").
Qed.

(** X1. [check_config] accepts an Item exactly when the Item has metadata
    with a non-empty value and a non-empty type, a non-empty set when the
    type is dayset, and a non-empty file when the type is custom; what it
    returns is then that metadata. *)
Theorem check_config_accepts_iff (i : string) (w : World) (cfg : Metadata) :
  result (check_config i) w = Ret (Some cfg) <->
  (assoc i (metadata w) = Some cfg /\
   value cfg <> "" /\
   exists ty,
     assoc "type" (configuration cfg) = Some ty /\ ty <> "" /\
     (ty = "dayset" ->
      exists s, assoc "set" (configuration cfg) = Some s /\ s <> "") /\
     (ty = "custom" ->
      exists f, assoc "file" (configuration cfg) = Some f /\ f <> "")).
Proof.
  unfold result. rewrite check_config_run. split.
  - destruct (assoc i (metadata w)) as [c|]; [|discriminate].
    destruct (String.eqb (value c) "") eqn:Ev; [discriminate|].
    destruct (assoc "type" (configuration c)) as [ty|] eqn:Et; [|discriminate].
    destruct (String.eqb ty "") eqn:Ety; [discriminate|].
    apply String.eqb_neq in Ev. apply String.eqb_neq in Ety.
    destruct (String.eqb ty "dayset") eqn:Ed.
    + apply String.eqb_eq in Ed.
      destruct (assoc "set" (configuration c)) as [s|] eqn:Es; [|discriminate].
      destruct (String.eqb s "") eqn:Ese; [discriminate|].
      apply String.eqb_neq in Ese.
      simpl. intros H. inversion H. subst c.
      split; [reflexivity|]. split; [exact Ev|].
      exists ty. split; [exact Et|]. split; [exact Ety|]. split.
      * intros _. now exists s.
      * intros Hc. subst ty. discriminate Hc.
    + apply String.eqb_neq in Ed.
      destruct (String.eqb ty "custom") eqn:Ec.
      * apply String.eqb_eq in Ec.
        destruct (assoc "file" (configuration c)) as [f|] eqn:Ef; [|discriminate].
        destruct (String.eqb f "") eqn:Efe; [discriminate|].
        apply String.eqb_neq in Efe.
        simpl. intros H. inversion H. subst c.
        split; [reflexivity|]. split; [exact Ev|].
        exists ty. split; [exact Et|]. split; [exact Ety|]. split.
        -- intros Hd. now elim Ed.
        -- intros _. now exists f.
      * apply String.eqb_neq in Ec.
        simpl. intros H. inversion H. subst c.
        split; [reflexivity|]. split; [exact Ev|].
        exists ty. split; [exact Et|]. split; [exact Ety|]. split.
        -- intros Hd. now elim Ed.
        -- intros Hc. now elim Ec.
  - intros (Hm & Hv & ty & Ht & Hty & Hset & Hfile).
    rewrite Hm. apply String.eqb_neq in Hv. rewrite Hv, Ht.
    apply String.eqb_neq in Hty. rewrite Hty.
    destruct (String.eqb ty "dayset") eqn:Ed.
    + apply String.eqb_eq in Ed. destruct (Hset Ed) as (s & Hs & Hse).
      rewrite Hs. apply String.eqb_neq in Hse. now rewrite Hse.
    + destruct (String.eqb ty "custom") eqn:Ec; [|reflexivity].
      apply String.eqb_eq in Ec. destruct (Hfile Ec) as (f & Hf & Hfe).
      rewrite Hf. apply String.eqb_neq in Hfe. now rewrite Hfe.
Qed.

(** X2. [check_config] never raises and changes nothing but the log: it
    logs nothing when it accepts the Item and exactly one error when it
    rejects it. *)
Theorem check_config_only_logs (i : string) (w : World) :
  exists r : option Metadata,
    result (check_config i) w = Ret r /\
    match r with
    | Some _ => exec (check_config i) w = w
    | None => exists msg, exec (check_config i) w = emit (Log ERROR msg) w
    end.
Proof.
  unfold result, exec. rewrite check_config_run. unfold TRACEBACK.
  destruct (assoc i (metadata w)) as [cfg|];
    [|eexists; split; [reflexivity|]; eexists; reflexivity].
  repeat match goal with
         | |- context [if ?b then _ else _] => destruct b
         | |- context [match assoc ?k ?c with _ => _ end] => destruct (assoc k c)
         end;
    eexists; (split; [reflexivity|]); simpl;
    try reflexivity; eexists; reflexivity.
Qed.

(** The six shapes of metadata, one result each. *)
Example check_config_shapes :
  map (fun i => match result (check_config i) Cases.configs with
                | Ret (Some _) => true
                | _ => false
                end)
      ["A"; "B"; "C"; "D"; "E"; "F"; "G"] =
  [true; false; false; false; false; true; false].
Proof. reflexivity. Qed.

(** ** get_times: who is returned *)

Lemma types_in_items (w : World) (ty j : string) :
  In j (types w ty) -> In j (keys (items w)).
Proof. unfold types. rewrite filter_In. tauto. Qed.

Lemma start_times_in_items (h : Host) (w : World) (d : DayType) (j : string) :
  In j (start_times h w d) -> In j (keys (items w)).
Proof.
  destruct d; simpl; unfold cond;
    repeat match goal with
           | |- context [if ?b then _ else _] => destruct b; simpl
           end;
    try rewrite filter_In; try tauto;
    intros H; try destruct H as [H _]; now apply types_in_items in H.
Qed.

Lemma start_times_eligible (h : Host) (w : World) (d : DayType) (j : string) :
  In j (start_times h w d) -> eligible h w d j.
Proof.
  destruct d; simpl; unfold cond; try rewrite filter_In; try tauto.
  - destruct (isWeekend h); simpl; [intros []|reflexivity].
  - destruct (isWeekend h); simpl; [reflexivity|intros []].
  - destruct (isBankHoliday h); simpl; [reflexivity|intros []].
Qed.

Lemma get_times_some (h : Host) (w : World) (l : list string) :
  result (get_times h) w = Ret (Some l) ->
  exists d, choose_day_type (start_times h w) = Some d /\
            l = start_times h w d /\ l <> [].
Proof.
  unfold result. rewrite get_times_run.
  destruct (choose_day_type (start_times h w)) as [d|] eqn:E;
    [|discriminate].
  simpl. intros H. inversion H. exists d.
  split; [reflexivity|]. split; [reflexivity|].
  now destruct (choose_day_type_some _ _ E).
Qed.

(** X3. Every marker [get_times] returns is an Item of the registry whose
    [type] is the one selected category, and it is eligible today under
    that category: a weekday marker only on a day that is no weekend, a
    weekend marker only on a weekend, a holiday marker only on a bank
    holiday, a dayset or custom marker only when Ephemeris says so for its
    own set or file. *)
Theorem get_times_returns_eligible (h : Host) (w : World) (l : list string)
    (Hsel : result (get_times h) w = Ret (Some l)) :
  exists d,
    forall j, In j l ->
      In j (keys (items w)) /\
      get_key_value w j "type" = Some (type_name d) /\
      eligible h w d j.
Proof.
  destruct (get_times_some h w l Hsel) as (d & _ & -> & _).
  exists d. intros j Hj. split; [|split].
  - now apply start_times_in_items in Hj.
  - now apply start_times_type in Hj.
  - now apply start_times_eligible in Hj.
Qed.

Lemma get_times_returns_eligible_witness :
  exists d,
    forall j, In j ["Morning"; "Night"] ->
      In j (keys (items Sample.afternoon)) /\
      get_key_value Sample.afternoon j "type" = Some (type_name d) /\
      eligible Sample.host Sample.afternoon d j.
Proof.
  exact (get_times_returns_eligible Sample.host Sample.afternoon
           ["Morning"; "Night"] eq_refl).
Defined.

(** ** create_timers on any input *)

Lemma create_timers_iter_bad (now : ZonedDateTime) (i : string)
    (mr : ZonedDateTime * Value) (w : World) :
  is_datetime w i = false ->
  exists e, create_timers_iter now i mr w = (Raise e, w).
Proof.
  unfold is_datetime, create_timers_iter. intros H.
  unfold bind at 1. unfold items_get at 1. mrun.
  destruct (assoc i (items w)) as [v|]; [|now exists KeyError].
  cbv beta iota.
  destruct v; try discriminate H; now exists TypeError.
Qed.

Lemma take_while_all {A} (p : A -> bool) (l : list A) :
  forallb p l = true -> take_while p l = l.
Proof.
  induction l as [|x l IH]; simpl; [reflexivity|].
  intros H. apply andb_prop in H. destruct H as [Hx Hl].
  now rewrite Hx, IH.
Qed.

Lemma take_while_forallb {A} (p : A -> bool) (l : list A) :
  forallb p (take_while p l) = true.
Proof.
  induction l as [|x l IH]; simpl; [reflexivity|].
  destruct (p x) eqn:E; simpl; [now rewrite E|reflexivity].
Qed.

Lemma take_while_incl {A} (p : A -> bool) (l : list A) (x : A) :
  In x (take_while p l) -> In x l.
Proof.
  induction l as [|y l IH]; simpl; [tauto|].
  destruct (p y); simpl; [|tauto]. intros [H|H]; auto.
Qed.

(** The loop stops at the first marker that is no DateTime. *)
Lemma create_timers_loop_stops (now : ZonedDateTime) (l : list string) :
  forall (mr : ZonedDateTime * Value) (w : World),
  forallb (is_datetime w) l = false ->
  exists e,
    create_timers_loop now l mr w =
      (Raise e,
       mkWorld (items w) (metadata w)
         (loop_timers now w (datetime_prefix w l) mr (timers w))
         (clock w)
         (trace w ++ loop_events now w (datetime_prefix w l) mr)).
Proof.
  unfold create_timers_loop, datetime_prefix.
  induction l as [|i l IH]; intros mr w H; [discriminate H|].
  cbn [forallb take_while for_each] in *.
  destruct (is_datetime w i) eqn:Hi.
  - simpl in H. unfold bind at 1.
    rewrite (create_timers_iter_run _ _ _ _ Hi).
    destruct (IH (iter_acc now w i mr)
                (mkWorld (items w) (metadata w)
                   (iter_timers now w i mr (timers w)) (clock w)
                   (trace w ++ iter_events now w i mr)) H) as [e E].
    exists e. rewrite E.
    cbn [items metadata timers clock trace loop_timers loop_events].
    change (is_datetime
              (mkWorld (items w) (metadata w)
                 (iter_timers now w i mr (timers w)) (clock w)
                 (trace w ++ iter_events now w i mr)))
      with (is_datetime w).
    rewrite loop_events_store, loop_timers_store.
    now rewrite <- app_assoc.
  - destruct (create_timers_iter_bad now i mr w Hi) as [e E].
    exists e. unfold bind. rewrite E. simpl. rewrite app_nil_r.
    now destruct w.
Qed.

(** What a call of [create_timers] returns and leaves, whatever it is
    given. *)
Lemma create_timers_exec (l : list string) (w : World) :
  create_timers l w =
    (Ret tt,
     mkWorld (items w) (metadata w) (create_timers_registry l w) (clock w)
       (trace w ++ create_timers_events l w)).
Proof.
  unfold create_timers_registry, create_timers_events.
  destruct (assoc ETOD_ITEM (items w)) as [cur|] eqn:Hcur.
  - destruct (forallb (is_datetime w) l) eqn:Hdt.
    + rewrite (create_timers_run l cur w Hcur Hdt).
      unfold datetime_prefix. now rewrite (take_while_all _ _ Hdt).
    + unfold create_timers, log_traceback, create_timers_body,
        ZonedDateTime_now.
      mrun. rewrite (items_get_some _ _ _ Hcur). cbv beta iota.
      destruct (create_timers_loop_stops (clock w) l
                  (minusDays (clock w) 1, cur) w Hdt) as [e E].
      rewrite E. unfold emit, TRACEBACK. simpl.
      now rewrite <- app_assoc.
  - unfold create_timers, log_traceback, create_timers_body,
      ZonedDateTime_now.
    mrun. rewrite (items_get_none _ _ Hcur). reflexivity.
Qed.

Lemma create_timers_emitted_any (l : list string) (w : World) :
  emitted (create_timers l) w = create_timers_events l w.
Proof.
  apply emitted_app. unfold exec. now rewrite create_timers_exec.
Qed.

Lemma etod_transition_run_missing (st : Value) (w : World) :
  assoc ETOD_ITEM (items w) = None ->
  etod_transition st w = (Ret tt, emit TRACEBACK w).
Proof.
  intros H. unfold etod_transition, log_traceback. mrun.
  now rewrite (items_get_none _ _ H).
Qed.

(** X4. When the TimeOfDay Item does not exist, a firing transition timer
    sends no command: the lookup fails, the failure is logged and the call
    returns. *)
Theorem etod_transition_missing_item (st : Value) (w : World)
    (Hmissing : assoc ETOD_ITEM (items w) = None) :
  result (etod_transition st) w = Ret tt /\
  emitted (etod_transition st) w = [TRACEBACK].
Proof.
  unfold result. rewrite (etod_transition_run_missing st w Hmissing).
  split; [reflexivity|].
  apply emitted_app. unfold exec.
  now rewrite (etod_transition_run_missing st w Hmissing).
Qed.

Lemma etod_transition_missing_item_witness :
  result (etod_transition (VStr "DAY")) Cases.no_time_of_day = Ret tt /\
  emitted (etod_transition (VStr "DAY")) Cases.no_time_of_day = [TRACEBACK].
Proof.
  apply (etod_transition_missing_item (VStr "DAY") Cases.no_time_of_day).
  reflexivity.
Defined.

(** X5. When the TimeOfDay Item does not exist, [create_timers] does
    nothing for any marker: no update, no timer, no command; it logs the
    failure, returns, and leaves the registry as it was. *)
Theorem create_timers_missing_item (l : list string) (w : World)
    (Hmissing : assoc ETOD_ITEM (items w) = None) :
  result (create_timers l) w = Ret tt /\
  emitted (create_timers l) w = [TRACEBACK] /\
  timers (exec (create_timers l) w) = timers w.
Proof.
  unfold result, exec. rewrite create_timers_emitted_any, create_timers_exec.
  unfold create_timers_events, create_timers_registry. rewrite Hmissing.
  auto.
Qed.

Lemma create_timers_missing_item_witness :
  result (create_timers ["Morning"; "Night"]) Cases.no_time_of_day = Ret tt /\
  emitted (create_timers ["Morning"; "Night"]) Cases.no_time_of_day =
    [TRACEBACK] /\
  timers (exec (create_timers ["Morning"; "Night"]) Cases.no_time_of_day) =
    timers Cases.no_time_of_day.
Proof.
  apply (create_timers_missing_item ["Morning"; "Night"] Cases.no_time_of_day).
  reflexivity.
Defined.

Lemma datetime_prefix_stop (w : World) (pre post : list string) (i : string) :
  forallb (is_datetime w) pre = true ->
  is_datetime w i = false ->
  datetime_prefix w (pre ++ i :: post) = pre /\
  forallb (is_datetime w) (pre ++ i :: post) = false.
Proof.
  unfold datetime_prefix. intros Hpre Hi.
  induction pre as [|a pre IH]; simpl in *.
  - now rewrite Hi.
  - apply andb_prop in Hpre. destruct Hpre as [Ha Hpre].
    rewrite Ha. destruct (IH Hpre) as [-> ->]. auto.
Qed.

(** X6. A marker that holds no DateTime stops [create_timers] where it
    stands: the markers before it have had their updates posted and their
    timers checked, the markers after it are not looked at, and the
    TimeOfDay Item is not commanded. *)
Theorem create_timers_stops_at_bad_marker
    (pre post : list string) (i : string) (cur : Value) (w : World)
    (Hcur : assoc ETOD_ITEM (items w) = Some cur)
    (Hpre : forallb (is_datetime w) pre = true)
    (Hbad : is_datetime w i = false) :
  result (create_timers (pre ++ i :: post)) w = Ret tt /\
  emitted (create_timers (pre ++ i :: post)) w =
    loop_events (clock w) w pre (minusDays (clock w) 1, cur) ++ [TRACEBACK] /\
  filter is_timer_event (emitted (create_timers (pre ++ i :: post)) w) =
    map (future_timer w)
        (filter (fun j => isAfter (trigger_time w j) (clock w)) pre) /\
  (forall item v,
      ~ In (SendCommand item v) (emitted (create_timers (pre ++ i :: post)) w)).
Proof.
  destruct (datetime_prefix_stop w pre post i Hpre Hbad) as [Hp Hf].
  assert (E : emitted (create_timers (pre ++ i :: post)) w =
              loop_events (clock w) w pre (minusDays (clock w) 1, cur)
              ++ [TRACEBACK]).
  { rewrite create_timers_emitted_any. unfold create_timers_events.
    now rewrite Hcur, Hp, Hf. }
  split; [unfold result; now rewrite create_timers_exec|].
  split; [exact E|]. rewrite E. split.
  - rewrite filter_app, loop_events_timers. simpl. now rewrite app_nil_r.
  - intros item v Hin. apply in_app_or in Hin. destruct Hin as [Hin|Hin].
    + pose proof (loop_events_no_command (clock w) w item pre
                    (minusDays (clock w) 1, cur)) as Hno.
      rewrite <- not_true_iff_false in Hno. apply Hno.
      apply existsb_exists. exists (SendCommand item v). split; auto.
      simpl. apply String.eqb_refl.
    + destruct Hin as [Hin|[]]. discriminate Hin.
Qed.

(** Night is a String Item: the DAY timer of Morning is checked, then the
    call stops. *)
Lemma create_timers_stops_at_bad_marker_witness :
  emitted (create_timers ["Morning"; "Night"]) Cases.night_is_text =
    [Log DEBUG "FUTURE: {} Scheduleing Timer for {}";
     TimerCheck (VStr "DAY") (Sample.at_time Sample.day0 6 0)
       (CbTransition (VStr "DAY"));
     TRACEBACK].
Proof.
  exact (proj1 (proj2
    (create_timers_stops_at_bad_marker ["Morning"] [] "Night" (VStr "NIGHT")
       Cases.night_is_text eq_refl eq_refl eq_refl))).
Defined.

(** ** create_timers: what it never does *)

Lemma loop_events_calls (now : ZonedDateTime) (w : World) (all l : list string) :
  (forall i, In i l -> In i all) ->
  forall mr, Forall (create_timers_call all) (loop_events now w l mr).
Proof.
  induction l as [|i l IH]; intros Hin mr; simpl; [constructor|].
  apply Forall_app. split.
  - unfold iter_events, correction_events. apply Forall_app. split.
    + destruct (isBefore _ _); repeat constructor.
      apply Hin. now left.
    + destruct (iter_branch now w i mr); repeat constructor.
  - apply IH. intros j Hj. apply Hin. now right.
Qed.

Lemma create_timers_events_calls (l : list string) (w : World) :
  Forall (create_timers_call l) (create_timers_events l w).
Proof.
  unfold create_timers_events, TRACEBACK.
  destruct (assoc ETOD_ITEM (items w)) as [cur|]; [|repeat constructor].
  apply Forall_app. split.
  - apply loop_events_calls. intros i Hi.
    now apply take_while_incl in Hi.
  - destruct (forallb (is_datetime w) l); [|repeat constructor].
    unfold final_events. destruct (value_eqb cur _); repeat constructor.
Qed.

(** X7. Whatever it is given, [create_timers] returns without raising and
    leaves the items, the metadata and the clock alone.  Every call it makes
    is a log line, an update posted to one of the markers it was given, a
    timer check, or a command to the TimeOfDay Item: it cancels no timer,
    commands no other Item and does not sleep. *)
Theorem create_timers_calls (l : list string) (w : World) :
  result (create_timers l) w = Ret tt /\
  items (exec (create_timers l) w) = items w /\
  metadata (exec (create_timers l) w) = metadata w /\
  clock (exec (create_timers l) w) = clock w /\
  Forall (create_timers_call l) (emitted (create_timers l) w).
Proof.
  rewrite create_timers_emitted_any. unfold result, exec.
  rewrite create_timers_exec. simpl.
  repeat split. apply create_timers_events_calls.
Qed.

Lemma loop_events_timer_in (now : ZonedDateTime) (w : World) (l : list string)
    (mr : ZonedDateTime * Value) (k : Value) (t : ZonedDateTime)
    (f : Callback) :
  In (TimerCheck k t f) (loop_events now w l mr) ->
  exists i, In i l /\ k = get_value w i /\ t = trigger_time w i /\
            f = CbTransition k /\ now < t.
Proof.
  intros Hin.
  assert (Hf : In (TimerCheck k t f)
                 (filter is_timer_event (loop_events now w l mr)))
    by (apply filter_In; split; [exact Hin|reflexivity]).
  rewrite loop_events_timers in Hf. apply in_map_iff in Hf.
  destruct Hf as (i & Hi & Hfil). apply filter_In in Hfil.
  destruct Hfil as [Hil Hafter].
  unfold future_timer in Hi. inversion Hi. subst.
  exists i. repeat split; auto.
  unfold isAfter in Hafter. now apply Z.ltb_lt in Hafter.
Qed.

Lemma create_timers_events_timer_in (l : list string) (w : World)
    (k : Value) (t : ZonedDateTime) (f : Callback) :
  In (TimerCheck k t f) (create_timers_events l w) ->
  exists i, In i l /\ k = get_value w i /\ t = trigger_time w i /\
            f = CbTransition k /\ clock w < t.
Proof.
  unfold create_timers_events, TRACEBACK.
  destruct (assoc ETOD_ITEM (items w)) as [cur|].
  - intros Hin. apply in_app_or in Hin. destruct Hin as [Hin|Hin].
    + apply loop_events_timer_in in Hin.
      destruct Hin as (i & Hi & Hrest). exists i.
      split; [now apply take_while_incl in Hi|exact Hrest].
    + exfalso. unfold final_events in Hin.
      destruct (forallb (is_datetime w) l);
        [destruct (value_eqb cur _)|]; simpl in Hin;
        repeat (destruct Hin as [Hin|Hin]; [discriminate Hin|]);
        exact Hin.
  - intros [Hin|[]]. discriminate Hin.
Qed.

(** X8. Every timer [create_timers] checks is one of a marker it was
    given: its key is the marker's state, its target is the marker's trigger
    time, strictly after now, and what it runs is the transition into that
    same state.  No timer is ever set in the past. *)
Theorem timers_checked_in_future (l : list string) (w : World)
    (k : Value) (t : ZonedDateTime) (f : Callback)
    (Hin : In (TimerCheck k t f) (emitted (create_timers l) w)) :
  exists i, In i l /\ k = get_value w i /\ t = trigger_time w i /\
            f = CbTransition k /\ clock w < t.
Proof.
  rewrite create_timers_emitted_any in Hin.
  now apply create_timers_events_timer_in.
Qed.

Lemma timers_checked_in_future_witness :
  exists i, In i ["Morning"; "Night"] /\
            VStr "NIGHT" = get_value Sample.afternoon i /\
            Sample.at_time Sample.day0 20 0 = trigger_time Sample.afternoon i /\
            CbTransition (VStr "NIGHT") = CbTransition (VStr "NIGHT") /\
            clock Sample.afternoon < Sample.at_time Sample.day0 20 0.
Proof.
  apply (timers_checked_in_future ["Morning"; "Night"] Sample.afternoon
           (VStr "NIGHT") (Sample.at_time Sample.day0 20 0)
           (CbTransition (VStr "NIGHT"))).
  vm_compute. right. right. now left.
Defined.

Lemma loop_events_update_in (now : ZonedDateTime) (w : World) (l : list string)
    (i : string) (v : Value) :
  forall mr,
  In (PostUpdate i v) (loop_events now w l mr) ->
  In i l /\ v = VDateTime (trigger_time w i) /\
  stored_time w i < trigger_time w i.
Proof.
  induction l as [|j l IH]; intros mr; simpl; [tauto|].
  intros Hin. apply in_app_or in Hin. destruct Hin as [Hin|Hin].
  - unfold iter_events in Hin. apply in_app_or in Hin.
    destruct Hin as [Hin|Hin].
    + unfold correction_events in Hin.
      destruct (isBefore (stored_time w j) (trigger_time w j)) eqn:E;
        [|destruct Hin].
      destruct Hin as [Hin|[Hin|[]]]; [discriminate Hin|].
      inversion Hin. subst. split; [now left|]. split; [reflexivity|].
      unfold isBefore in E. now apply Z.ltb_lt in E.
    + exfalso. destruct (iter_branch now w j mr); simpl in Hin;
        repeat (destruct Hin as [Hin|Hin]; [discriminate Hin|]);
        exact Hin.
  - destruct (IH _ Hin) as (Hi & Hv & Hlt). auto.
Qed.

Lemma create_timers_events_update_in (l : list string) (w : World)
    (i : string) (v : Value) :
  In (PostUpdate i v) (create_timers_events l w) ->
  In i l /\ v = VDateTime (trigger_time w i) /\
  stored_time w i < trigger_time w i.
Proof.
  unfold create_timers_events, TRACEBACK.
  destruct (assoc ETOD_ITEM (items w)) as [cur|].
  - intros Hin. apply in_app_or in Hin. destruct Hin as [Hin|Hin].
    + apply loop_events_update_in in Hin.
      destruct Hin as (Hi & Hrest).
      split; [now apply take_while_incl in Hi|exact Hrest].
    + exfalso. unfold final_events in Hin.
      destruct (forallb (is_datetime w) l);
        [destruct (value_eqb cur _)|]; simpl in Hin;
        repeat (destruct Hin as [Hin|Hin]; [discriminate Hin|]);
        exact Hin.
  - intros [Hin|[]]. discriminate Hin.
Qed.

(** X9. An update [create_timers] posts to a marker always moves the
    marker's timestamp forward: the value posted is the marker's trigger
    time, and it is posted only when the stored timestamp is before it. *)
Theorem update_moves_marker_forward (l : list string) (w : World)
    (i : string) (v : Value)
    (Hin : In (PostUpdate i v) (emitted (create_timers l) w)) :
  In i l /\ v = VDateTime (trigger_time w i) /\
  stored_time w i < trigger_time w i.
Proof.
  rewrite create_timers_emitted_any in Hin.
  now apply create_timers_events_update_in.
Qed.

Lemma update_moves_marker_forward_witness :
  In "Night" ["Morning"; "Night"] /\
  VDateTime (Sample.at_time Sample.day0 20 0) =
    VDateTime (trigger_time Sample.early "Night") /\
  stored_time Sample.early "Night" < trigger_time Sample.early "Night".
Proof.
  apply (update_moves_marker_forward ["Morning"; "Night"] Sample.early
           "Night" (VDateTime (Sample.at_time Sample.day0 20 0))).
  vm_compute. right. right. right. now left.
Defined.

Lemma current_not_before_trigger (w : World) (i : string) :
  toLocalDate (clock w) <= toLocalDate (stored_time w i) ->
  ~ stored_time w i < trigger_time w i.
Proof. intros H. time_arith. Qed.

(** X10. A marker whose stored timestamp is dated today or later is left
    alone: [create_timers] posts no update to it. *)
Theorem current_marker_not_updated (l : list string) (w : World) (i : string)
    (Hcurrent : toLocalDate (clock w) <= toLocalDate (stored_time w i)) :
  forall v, ~ In (PostUpdate i v) (emitted (create_timers l) w).
Proof.
  intros v Hin. rewrite create_timers_emitted_any in Hin.
  apply create_timers_events_update_in in Hin.
  destruct Hin as (_ & _ & Hlt).
  now apply (current_not_before_trigger w i Hcurrent).
Qed.

Lemma current_marker_not_updated_witness :
  toLocalDate (clock Sample.early) <=
    toLocalDate (stored_time Sample.early "Morning") /\
  (forall v, ~ In (PostUpdate "Morning" v)
                  (emitted (create_timers ["Morning"; "Night"]) Sample.early)).
Proof.
  split; [vm_compute; discriminate|].
  apply (current_marker_not_updated ["Morning"; "Night"] Sample.early "Morning").
  vm_compute. discriminate.
Defined.

(** ** ephem_tod: more on the reload timer *)

Lemma reaches_scheduling_run (h : Host) (w : World) :
  reaches_scheduling h w ->
  exists w' tm before,
    ephem_tod h w = (Ret tt, w') /\
    timers w' =
      TimerMgr.check RELOAD_KEY (reload_time_of (zone h) (clock w')) CbReload tm /\
    emitted (ephem_tod h) w =
      before ++ [TimerCheck RELOAD_KEY (reload_time_of (zone h) (clock w')) CbReload].
Proof.
  unfold reaches_scheduling. intros Hreach.
  destruct (ephem_tod_cases h w)
    as (k & Hk & [E | [(e & w' & E & _ & T) | [(w' & E & _ & T)
                      | (w' & tm & es & E & Htm & T)]]]).
  - exfalso. rewrite (emitted_app (ephem_tod h) w _) in Hreach
      by (unfold exec; now rewrite E).
    simpl in Hreach. destruct Hreach as [H|[H|[H|[]]]]; discriminate.
  - exfalso. rewrite (emitted_app (ephem_tod h) w _) in Hreach
      by (unfold exec; rewrite E; exact T).
    simpl in Hreach. destruct Hreach as [H|[H|H]]; try discriminate.
    destruct Hk as [-> | ->]; [destruct H|now apply not_in_kick].
  - exfalso. rewrite (emitted_app (ephem_tod h) w _) in Hreach
      by (unfold exec; rewrite E; exact T).
    simpl in Hreach. destruct Hreach as [H|[H|H]]; try discriminate.
    apply in_app_or in H. destruct H as [H|[H|[]]]; [|discriminate].
    destruct Hk as [-> | ->]; [destruct H|now apply not_in_kick].
  - exists w', tm.
    exists ([Log INFO "Recalculating time of day";
             Log INFO "Today is a {} day, there are {} time periods today."]
            ++ k ++ TimerCancelAll :: es).
    split; [exact E|]. split; [exact Htm|].
    apply emitted_app. unfold exec. rewrite E. simpl snd. rewrite T.
    f_equal. now rewrite <- !app_assoc.
Qed.

Lemma reload_time_of_bounds (z : Zone.ZoneRules) (o : Z) (now : ZonedDateTime) :
  Zone.steady z o (now - NANOS_PER_DAY) (now + NANOS_PER_DAY) ->
  now <= reload_time_of z now < now + NANOS_PER_DAY /\
  (reload_time_of z now = now <-> Zone.toLocalTime z now = hms 0 2 0).
Proof.
  intros Hs. rewrite (reload_time_of_steady z o now Hs).
  assert (Hoff : Zone.getOffset z now = o)
    by (apply (proj1 Hs); unfold NANOS_PER_DAY, NANOS_PER_HOUR,
          NANOS_PER_MINUTE, NANOS_PER_SECOND; lia).
  unfold Zone.toLocalTime, Zone.toLocalDateTime. rewrite Hoff. cbv zeta.
  destruct (Z.ltb_spec (atDate (toLocalDate (now + o)) (hms 0 2 0)) (now + o))
    as [Hlt|Hge];
    (split; [|split; intros H]); time_arith.
Qed.

(** X11. While the zone keeps one offset from 24 hours before the rule
    reads the clock to 24 hours after, the reload timer is never set in the
    past and never a day or more ahead: its target is at or after that
    instant and less than 24 hours later; it is that very instant only when
    the rule runs at 00:02:00 sharp. *)
Theorem reload_not_in_past (h : Host) (w : World) (o : Z)
    (Hreach : reaches_scheduling h w)
    (Hsteady : Zone.steady (zone h) o
                 (clock (exec (ephem_tod h) w) - NANOS_PER_DAY)
                 (clock (exec (ephem_tod h) w) + NANOS_PER_DAY)) :
  exists reload_time before,
    emitted (ephem_tod h) w =
      before ++ [TimerCheck (VStr "etod_reload") reload_time CbReload] /\
    clock (exec (ephem_tod h) w) <= reload_time /\
    reload_time < clock (exec (ephem_tod h) w) + NANOS_PER_DAY /\
    (reload_time = clock (exec (ephem_tod h) w) <->
     Zone.toLocalTime (zone h) (clock (exec (ephem_tod h) w)) = hms 0 2 0).
Proof.
  destruct (reaches_scheduling_run h w Hreach) as (w' & tm & before & E & _ & T).
  unfold exec in *. rewrite E in *. simpl snd in *.
  exists (reload_time_of (zone h) (clock w')), before.
  split; [exact T|].
  destruct (reload_time_of_bounds (zone h) o (clock w') Hsteady)
    as [[Hlo Hhi] Heq]. auto.
Qed.

(** A run at 14:00, two days before the clocks of the zone are set
    forward. *)
Lemma reload_not_in_past_witness :
  exists reload_time before,
    emitted (ephem_tod Cases.host_spring) Cases.day_before =
      before ++ [TimerCheck (VStr "etod_reload") reload_time CbReload] /\
    clock (exec (ephem_tod Cases.host_spring) Cases.day_before) <= reload_time /\
    reload_time <
      clock (exec (ephem_tod Cases.host_spring) Cases.day_before) + NANOS_PER_DAY /\
    (reload_time = clock (exec (ephem_tod Cases.host_spring) Cases.day_before) <->
     Zone.toLocalTime Cases.spring_forward
       (clock (exec (ephem_tod Cases.host_spring) Cases.day_before)) = hms 0 2 0).
Proof.
  apply (reload_not_in_past Cases.host_spring Cases.day_before 0).
  - unfold reaches_scheduling. vm_compute. right. right. now left.
  - apply spring_forward_steady. vm_compute. reflexivity.
Defined.

(** ** ephem_tod: NULL markers *)

Lemma in_keys_assoc {V} (i : string) (its : list (string * V)) :
  In i (keys its) -> exists v, assoc i its = Some v.
Proof.
  unfold keys. induction its as [|[k v] its IH]; simpl; [tauto|].
  intros H. destruct (String.eqb i k) eqn:E; [now exists v|].
  destruct H as [H|H]; [|now apply IH].
  subst k. now rewrite String.eqb_refl in E.
Qed.

Lemma null_items_run (l : list string) (w : World) :
  (forall i, In i l -> In i (keys (items w))) ->
  null_items l w = (Ret (filter (is_null w) l), w).
Proof.
  unfold null_items. induction l as [|i l IH]; intros Hin; [reflexivity|].
  destruct (in_keys_assoc i (items w) (Hin i (or_introl eq_refl))) as [v Hv].
  assert (Hn : is_null w i = is_undef v) by (unfold is_null; now rewrite Hv).
  rewrite (filterM_cons _ i l (is_undef v) w).
  - rewrite IH by (intros j Hj; apply Hin; now right).
    cbn [filter]. now rewrite Hn.
  - unfold bind. now rewrite (items_get_some _ _ _ Hv).
Qed.

Lemma truthy_filter {A} (p : A -> bool) (l : list A) :
  truthy (filter p l) = existsb p l.
Proof.
  induction l as [|x l IH]; simpl; [reflexivity|].
  destruct (p x); simpl; [reflexivity|exact IH].
Qed.

(** X12. When a marker of today is NULL or UNDEF and there is no InitItems
    Item, the rule does not wait: it sends no command, does not sleep, logs
    that the Items are still NULL and returns with the registry as it
    was. *)
Theorem null_without_init_aborts (h : Host) (w : World) (l : list string)
    (Hsel : result (get_times h) w = Ret (Some l))
    (Hnull : existsb (is_null w) l = true)
    (Hnoinit : mem "InitItems" (keys (items w)) = false) :
  result (ephem_tod h) w = Ret tt /\
  emitted (ephem_tod h) w =
    [Log INFO "Recalculating time of day";
     Log INFO "Today is a {} day, there are {} time periods today.";
     Log ERROR STILL_NULL] /\
  timers (exec (ephem_tod h) w) = timers w.
Proof.
  destruct (get_times_some h w l Hsel) as (d & Hd & Hl & Hne).
  assert (Hin : forall i, In i l -> In i (keys (items w)))
    by (intros i Hi; rewrite Hl in Hi; now apply start_times_in_items in Hi).
  assert (E : ephem_tod h w =
              (Ret tt,
               emit (Log ERROR STILL_NULL)
                 (emit (Log INFO "Today is a {} day, there are {} time periods today.")
                    (emit (Log INFO "Recalculating time of day") w)))).
  { rewrite ephem_tod_run, Hd. cbv zeta. rewrite <- Hl.
    destruct l as [|x l]; [congruence|].
    set (w1 := emit (Log INFO "Today is a {} day, there are {} time periods today.")
                 (emit (Log INFO "Recalculating time of day") w)).
    assert (Hin1 : forall i, In i (x :: l) -> In i (keys (items w1)))
      by exact Hin.
    assert (Hnull1 : existsb (is_null w1) (x :: l) = true) by exact Hnull.
    assert (Hnoinit1 : mem "InitItems" (keys (items w1)) = false)
      by exact Hnoinit.
    rewrite kick_off_init_run.
    rewrite (null_items_run (x :: l) w1 Hin1).
    rewrite truthy_filter, Hnull1, Hnoinit1. cbn [andb].
    unfold bind. rewrite (null_items_run (x :: l) w1 Hin1).
    now rewrite truthy_filter, Hnull1. }
  unfold result, exec. rewrite E. split; [reflexivity|].
  split; [|reflexivity].
  apply emitted_app. unfold exec. rewrite E. simpl.
  now rewrite <- !app_assoc.
Qed.

Lemma null_without_init_aborts_witness :
  result (ephem_tod Sample.host) Cases.night_null_no_init = Ret tt /\
  emitted (ephem_tod Sample.host) Cases.night_null_no_init =
    [Log INFO "Recalculating time of day";
     Log INFO "Today is a {} day, there are {} time periods today.";
     Log ERROR STILL_NULL] /\
  timers (exec (ephem_tod Sample.host) Cases.night_null_no_init) =
    timers Cases.night_null_no_init.
Proof.
  apply (null_without_init_aborts Sample.host Cases.night_null_no_init
           ["Morning"; "Night"]); reflexivity.
Defined.



(** ** ephem_tod never fails *)

(** X14. As long as the init rule removes no Item from the registry,
    [ephem_tod] never raises: whatever the markers hold, it returns. *)
Theorem ephem_tod_never_raises (h : Host) (w : World)
    (Hkeep : forall its i, In i (keys its) -> In i (keys (init_items h its))) :
  result (ephem_tod h) w = Ret tt.
Proof.
  unfold result. rewrite ephem_tod_run.
  destruct (choose_day_type (start_times h w)) as [d|]; [|reflexivity].
  cbv zeta.
  destruct (start_times h w d) as [|x l] eqn:Hl; [reflexivity|].
  assert (Hin : forall i, In i (x :: l) -> In i (keys (items w)))
    by (intros i Hi; rewrite <- Hl in Hi; now apply start_times_in_items in Hi).
  set (w1 := emit (Log INFO "Today is a {} day, there are {} time periods today.")
               (emit (Log INFO "Recalculating time of day") w)).
  assert (Hin1 : forall i, In i (x :: l) -> In i (keys (items w1)))
    by exact Hin.
  rewrite kick_off_init_run, (null_items_run (x :: l) w1 Hin1).
  assert (Hafter : forall w2,
             (forall i, In i (x :: l) -> In i (keys (items w2))) ->
             fst ((nulls <- null_items (x :: l) ;;
                   if truthy nulls then log ERROR STILL_NULL
                   else schedule_all (zone h) (x :: l)) w2) = Ret tt).
  { intros w2 Hin2. unfold bind.
    rewrite (null_items_run (x :: l) w2 Hin2).
    destruct (truthy _); [reflexivity|].
    destruct (schedule_all_run (zone h) (x :: l) w2) as (tm & es & S).
    now rewrite S. }
  destruct (truthy _ && mem "InitItems" (keys (items w1))).
  - apply Hafter. intros i Hi. unfold init_world. cbn [items].
    apply Hkeep. now apply Hin1.
  - now apply Hafter.
Qed.

Lemma ephem_tod_never_raises_witness :
  result (ephem_tod Sample.host) Cases.night_is_text = Ret tt.
Proof.
  apply (ephem_tod_never_raises Sample.host Cases.night_is_text).
  intros its i H. exact H.
Defined.

(** ** ephem_tod twice *)

(** X15. Running the cycle again from the world the cycle left gives the
    same registry: the second run cancels what the first one built and
    builds the same timers. *)
Theorem cycle_registry_idempotent
    (h : Host) (w : World) (l : list string) (cur : Value)
    (Hsel : result (get_times h) w = Ret (Some l))
    (Hcur : assoc ETOD_ITEM (items w) = Some cur)
    (Hdt : forallb (is_datetime w) l = true) :
  timers (exec (ephem_tod h) (exec (ephem_tod h) w)) =
  timers (exec (ephem_tod h) w).
Proof.
  unfold exec at 2 3. rewrite (ephem_tod_datetime_run h w l cur Hsel Hcur Hdt).
  cbn [snd].
  match goal with
  | |- timers (exec (ephem_tod h) ?W) = _ => set (w' := W)
  end.
  assert (Hsel' : result (get_times h) w' = Ret (Some l)).
  { unfold result in *. rewrite get_times_run in *.
    change (start_times h w') with (start_times h w).
    now destruct (choose_day_type (start_times h w)). }
  assert (Hcur' : assoc ETOD_ITEM (items w') = Some cur) by exact Hcur.
  assert (Hdt' : forallb (is_datetime w') l = true) by exact Hdt.
  unfold exec. rewrite (ephem_tod_datetime_run h w' l cur Hsel' Hcur' Hdt').
  unfold w'. cbn [snd items metadata clock timers trace].
  now rewrite loop_timers_store.
Qed.

Lemma cycle_registry_idempotent_witness :
  timers (exec (ephem_tod Sample.host)
            (exec (ephem_tod Sample.host) Sample.afternoon_again)) =
  timers (exec (ephem_tod Sample.host) Sample.afternoon_again).
Proof.
  exact (cycle_registry_idempotent Sample.host Sample.afternoon_again
           ["Morning"; "Night"] (VStr "NIGHT") eq_refl eq_refl eq_refl).
Defined.

(** ** load_etod *)

(** X16. When the existing rule cannot be deleted, [load_etod] logs the
    error and stops there: no validation, no timer cancelled, no cycle
    run. *)
Theorem load_etod_delete_fails (h : Host) (w : World)
    (Hfail : delete_rule_ok h = false) :
  result (load_etod h) w = Ret tt /\
  emitted (load_etod h) w = [Log ERROR "Failed to delete rule!"] /\
  timers (exec (load_etod h) w) = timers w.
Proof.
  assert (E : load_etod h w =
              (Ret tt, emit (Log ERROR "Failed to delete rule!") w)).
  { unfold load_etod, log_traceback. now rewrite Hfail. }
  unfold result, exec. rewrite E. split; [reflexivity|].
  split; [|reflexivity].
  apply emitted_app. unfold exec. now rewrite E.
Qed.

Lemma load_etod_delete_fails_witness :
  result (load_etod Cases.host_stuck) Sample.night_null = Ret tt /\
  emitted (load_etod Cases.host_stuck) Sample.night_null =
    [Log ERROR "Failed to delete rule!"] /\
  timers (exec (load_etod Cases.host_stuck) Sample.night_null) =
    timers Sample.night_null.
Proof.
  apply (load_etod_delete_fails Cases.host_stuck Sample.night_null).
  reflexivity.
Defined.

(** ** A timer of create_timers fires *)

Lemma etod_transition_run (st cur : Value) (w : World) :
  assoc ETOD_ITEM (items w) = Some cur ->
  etod_transition st w =
    (Ret tt,
     emit (SendCommand ETOD_ITEM st)
       (emit (Log INFO "Transitioning Time of Day from {} to {}") w)).
Proof.
  intros H. unfold etod_transition, log_traceback. mrun.
  now rewrite (items_get_some _ _ _ H).
Qed.

(** X17. A timer that [create_timers] has checked, when it fires in a world
    where the TimeOfDay Item exists, commands the Item to the state of the
    marker the timer was checked for. *)
Theorem fired_timer_commands_marker_state
    (h : Host) (l : list string) (w w' : World)
    (k : Value) (t : ZonedDateTime) (f : Callback) (cur : Value)
    (Hin : In (TimerCheck k t f) (emitted (create_timers l) w))
    (Hitem : assoc ETOD_ITEM (items w') = Some cur) :
  exists i,
    In i l /\ t = trigger_time w i /\
    emitted (fire h f) w' =
      [Log INFO "Transitioning Time of Day from {} to {}";
       SendCommand ETOD_ITEM (get_value w i)].
Proof.
  rewrite create_timers_emitted_any in Hin.
  apply create_timers_events_timer_in in Hin.
  destruct Hin as (i & Hi & Hk & Ht & Hf & _).
  exists i. split; [exact Hi|]. split; [exact Ht|].
  subst f k. apply emitted_app. unfold exec. simpl.
  rewrite (etod_transition_run _ cur w' Hitem). simpl.
  now rewrite <- app_assoc.
Qed.

Lemma fired_timer_commands_marker_state_witness :
  exists i,
    In i ["Morning"; "Night"] /\
    Sample.at_time Sample.day0 20 0 = trigger_time Sample.afternoon i /\
    emitted (fire Sample.host (CbTransition (VStr "NIGHT"))) Sample.early =
      [Log INFO "Transitioning Time of Day from {} to {}";
       SendCommand ETOD_ITEM (get_value Sample.afternoon i)].
Proof.
  apply (fired_timer_commands_marker_state Sample.host ["Morning"; "Night"]
           Sample.afternoon Sample.early (VStr "NIGHT")
           (Sample.at_time Sample.day0 20 0) (CbTransition (VStr "NIGHT"))
           (VStr "NIGHT")).
  - vm_compute. right. right. now left.
  - reflexivity.
Defined.

(** ** The shape of a cycle *)

Lemma schedule_all_exec (z : Zone.ZoneRules) (l : list string) (w : World) :
  exists tm,
    schedule_all z l w =
      (Ret tt,
       mkWorld (items w) (metadata w) tm (clock w)
         (trace w ++ TimerCancelAll
            :: create_timers_events l
                 (emit TimerCancelAll
                    (set_timers (TimerMgr.cancel_all (timers w)) w))
            ++ reload_log z (clock w)
            ++ [TimerCheck RELOAD_KEY (reload_time_of z (clock w)) CbReload])).
Proof.
  unfold schedule_all. unfold bind at 1. unfold timers_cancel_all at 1.
  cbv beta iota. unfold bind at 1. cbv beta.
  rewrite create_timers_exec, reload_run.
  eexists. unfold emit, set_timers. cbn [items metadata clock timers trace].
  rewrite <- !app_assoc. reflexivity.
Qed.

Lemma kick_events_before : Forall before_scheduling kick_events.
Proof.
  unfold kick_events, before_scheduling.
  repeat (apply Forall_cons;
          [first [left; reflexivity | right; left; reflexivity
                 | right; right; reflexivity]|]).
  apply Forall_nil.
Qed.

Lemma reload_tail_calls (z : Zone.ZoneRules) (l : list string) (now : ZonedDateTime) :
  Forall (create_timers_call l)
    (reload_log z now ++ [TimerCheck RELOAD_KEY (reload_time_of z now) CbReload]).
Proof.
  unfold reload_log. destruct (isBefore _ now); repeat constructor.
Qed.

(** X18. A run of [ephem_tod] has two phases.  The first makes only log
    calls and, at most, the command ON to InitItems followed by the sleep.
    The second, if the run gets there, starts with the one cancel-all and
    then makes only calls of the kinds of [create_timers] on the markers
    [get_times] returned: log lines, updates of those markers, timer checks
    and a command to the TimeOfDay Item.  So no timer is checked before the
    registry was cleared, no timer is cancelled by name, and no other Item
    is commanded or updated. *)
Theorem cycle_shape (h : Host) (w : World) :
  exists before after,
    emitted (ephem_tod h) w = before ++ after /\
    Forall before_scheduling before /\
    (after = [] \/
     exists l rest,
       result (get_times h) w = Ret (Some l) /\
       after = TimerCancelAll :: rest /\
       Forall (create_timers_call l) rest).
Proof.
  assert (Hlogs : forall a b, Forall before_scheduling [Log INFO a; Log INFO b])
    by (intros a b; repeat (apply Forall_cons; [left; reflexivity|]);
        apply Forall_nil).
  assert (Hsched : forall l w2 pre,
             trace w2 = trace w ++ pre ->
             exists rest,
               trace (snd (schedule_all (zone h) l w2)) =
                 trace w ++ pre ++ TimerCancelAll :: rest /\
               Forall (create_timers_call l) rest).
  { intros l w2 pre T. destruct (schedule_all_exec (zone h) l w2) as [tm S].
    rewrite S. cbn [snd trace]. eexists. split.
    - rewrite T, <- app_assoc. reflexivity.
    - apply Forall_app. split;
        [apply create_timers_events_calls|apply reload_tail_calls]. }
  destruct (choose_day_type (start_times h w)) as [d|] eqn:Hd.
  2:{ exists [Log INFO "Recalculating time of day"; TRACEBACK;
              Log ERROR NO_START_TIMES], [].
      split; [|split; [|now left]].
      - rewrite app_nil_r. apply emitted_app. unfold exec.
        rewrite ephem_tod_run, Hd. unfold emit, TRACEBACK. simpl.
        now rewrite <- !app_assoc.
      - repeat (apply Forall_cons; [left; reflexivity|]). apply Forall_nil. }
  destruct (choose_day_type_some _ _ Hd) as [Hne _].
  assert (Hsel : result (get_times h) w = Ret (Some (start_times h w d)))
    by (unfold result; rewrite get_times_run; now rewrite Hd).
  destruct (start_times h w d) as [|x l] eqn:Hl; [congruence|].
  set (w1 := emit (Log INFO "Today is a {} day, there are {} time periods today.")
               (emit (Log INFO "Recalculating time of day") w)).
  assert (T1 : trace w1 =
               trace w ++ [Log INFO "Recalculating time of day";
                           Log INFO "Today is a {} day, there are {} time periods today."])
    by (unfold w1, emit; simpl; now rewrite <- app_assoc).
  assert (Hrest : forall w2 pre,
             trace w2 = trace w ++ pre ->
             Forall before_scheduling pre ->
             exists before after,
               trace (snd ((nulls <- null_items (x :: l) ;;
                            if truthy nulls then log ERROR STILL_NULL
                            else schedule_all (zone h) (x :: l)) w2)) =
                 trace w ++ before ++ after /\
               Forall before_scheduling before /\
               (after = [] \/
                exists rest,
                  after = TimerCancelAll :: rest /\
                  Forall (create_timers_call (x :: l)) rest)).
  { intros w2 pre T Hpre.
    destruct (recheck_cases (zone h) (x :: l) w2) as [[e R]|[R|R]];
      cbv zeta in R; rewrite R.
    - exists pre, []. rewrite app_nil_r. cbn [snd]. auto.
    - exists (pre ++ [Log ERROR STILL_NULL]), [].
      rewrite app_nil_r. cbn [snd]. rewrite trace_emit, T, <- app_assoc.
      split; [reflexivity|]. split; [|now left].
      apply Forall_app. split; [exact Hpre|].
      apply Forall_cons; [left; reflexivity|apply Forall_nil].
    - destruct (Hsched (x :: l) w2 pre T) as (rest & Tr & Hf).
      exists pre. eexists. split; [exact Tr|]. split; [exact Hpre|].
      right. now exists rest. }
  assert (Hgoal : exists before after,
             trace (snd (ephem_tod h w)) = trace w ++ before ++ after /\
             Forall before_scheduling before /\
             (after = [] \/
              exists rest,
                after = TimerCancelAll :: rest /\
                Forall (create_timers_call (x :: l)) rest)).
  { rewrite ephem_tod_run, Hd. cbv zeta. rewrite Hl. fold w1.
    destruct (kick_off_init_cases h (x :: l) w1) as [[e K]|[K|K]]; rewrite K.
    - eexists. exists []. rewrite app_nil_r. cbn [snd].
      split; [exact T1|]. split; [apply Hlogs|now left].
    - apply (Hrest w1 _ T1), Hlogs.
    - apply (Hrest (init_world h w1)
               ([Log INFO "Recalculating time of day";
                 Log INFO "Today is a {} day, there are {} time periods today."]
                ++ kick_events)).
      + unfold init_world. cbn [trace]. now rewrite T1, <- app_assoc.
      + apply Forall_app. split; [apply Hlogs|apply kick_events_before]. }
  destruct Hgoal as (before & after & T & Hb & Ha).
  exists before, after. split; [now apply emitted_app|].
  split; [exact Hb|].
  destruct Ha as [Ha|(rest & Ha & Hf)]; [now left|].
  right. exists (x :: l), rest. auto.
Qed.

(** ** load_etod: validation and retirement *)

Lemma check_config_logs (i : string) (w : World) :
  exists r es,
    check_config i w =
      (Ret r, mkWorld (items w) (metadata w) (timers w) (clock w) (trace w ++ es)) /\
    Forall (fun e => is_log e = true) es.
Proof.
  assert (Hsame : forall r : option Metadata,
             exists r' es,
               (Ret r, w) =
                 (Ret r', mkWorld (items w) (metadata w) (timers w) (clock w)
                            (trace w ++ es)) /\
               Forall (fun e => is_log e = true) es).
  { intros r. exists r, []. rewrite app_nil_r.
    split; [now destruct w|constructor]. }
  assert (Hlog : forall msg,
             exists r' es,
               (Ret (@None Metadata), emit (Log ERROR msg) w) =
                 (Ret r', mkWorld (items w) (metadata w) (timers w) (clock w)
                            (trace w ++ es)) /\
               Forall (fun e => is_log e = true) es).
  { intros msg. exists None, [Log ERROR msg].
    split; [reflexivity|]. repeat constructor. }
  rewrite check_config_run. unfold TRACEBACK.
  destruct (assoc i (metadata w)) as [cfg|]; [|apply Hlog].
  repeat match goal with
         | |- context [if ?b then _ else _] => destruct b
         | |- context [match assoc ?k ?c with _ => _ end] => destruct (assoc k c)
         end;
    first [apply Hlog | apply Hsame].
Qed.

Lemma load_rule_with_metadata_logs (w : World) :
  exists names es,
    load_rule_with_metadata w =
      (Ret names,
       mkWorld (items w) (metadata w) (timers w) (clock w) (trace w ++ es)) /\
    Forall (fun e => is_log e = true) es.
Proof.
  unfold load_rule_with_metadata. unfold bind at 1, get. cbv beta iota.
  generalize (filter (fun i => match assoc i (metadata w) with
                               | Some _ => true
                               | None => false
                               end) (keys (items w))).
  intros l. revert w. induction l as [|i l IH]; intros w.
  - exists [], []. simpl. unfold ret. rewrite app_nil_r.
    split; [now destruct w|constructor].
  - destruct (check_config_logs i w) as (r & es1 & E1 & F1).
    set (w1 := mkWorld (items w) (metadata w) (timers w) (clock w)
                 (trace w ++ es1)) in *.
    destruct (IH w1) as (names & es2 & E2 & F2).
    exists (if match r with Some _ => true | None => false end
            then i :: names else names), (es1 ++ es2).
    split; [|now apply Forall_app].
    cbn [filterM]. unfold bind at 1. unfold bind at 1. rewrite E1.
    unfold ret at 1. cbv beta iota. unfold bind at 1. rewrite E2.
    unfold ret. unfold w1. cbn [items metadata timers clock trace].
    now rewrite <- app_assoc.
Qed.

Lemma cancel_each_run (ks : list Value) :
  forall w,
  for_each ks (fun i (_ : unit) => timers_cancel i) tt w =
    (Ret tt,
     mkWorld (items w) (metadata w)
       (fold_left (fun r k => TimerMgr.cancel k r) ks (timers w))
       (clock w) (trace w ++ map TimerCancel ks)).
Proof.
  induction ks as [|k ks IH]; intros w.
  - simpl. unfold ret. rewrite app_nil_r. now destruct w.
  - cbn [for_each]. unfold bind, timers_cancel. rewrite IH.
    unfold emit, set_timers. cbn [items metadata timers clock trace map fold_left].
    now rewrite <- app_assoc.
Qed.

Lemma fold_cancel (ks : list Value) :
  forall r,
  fold_left (fun r k => TimerMgr.cancel k r) ks r =
  filter (fun e => negb (existsb (fun k => value_eqb k (fst e)) ks)) r.
Proof.
  induction ks as [|k ks IH]; intros r; simpl.
  - induction r as [|e r IHr]; simpl; [reflexivity|]. now rewrite <- IHr.
  - rewrite IH. unfold TimerMgr.cancel.
    induction r as [|e r IHr]; simpl; [reflexivity|].
    destruct (value_eqb k (fst e)); simpl; [exact IHr|].
    destruct (existsb _ ks); simpl; [exact IHr|]. now rewrite IHr.
Qed.

Lemma retire_keeps (names : list string) (r : TimerMgr.t) :
  fold_left (fun r k => TimerMgr.cancel k r)
    (filter (fun k => negb (value_in k names)) (keys r)) r =
  filter (fun e => value_in (fst e) names) r.
Proof.
  rewrite fold_cancel. apply filter_ext_in. intros e He.
  destruct (value_in (fst e) names) eqn:Ev.
  - destruct (existsb _ _) eqn:Ex; [|reflexivity].
    apply existsb_exists in Ex. destruct Ex as (k & Hk & Heq).
    apply value_eqb_eq in Heq. subst k.
    apply filter_In in Hk. destruct Hk as [_ Hk].
    now rewrite Ev in Hk.
  - assert (Ex : existsb (fun k => value_eqb k (fst e))
                   (filter (fun k => negb (value_in k names)) (keys r)) = true).
    { apply existsb_exists. exists (fst e). split.
      - apply filter_In. split; [now apply in_map|now rewrite Ev].
      - apply value_eqb_refl. }
    now rewrite Ex.
Qed.

(** X19. With the old rule deleted, [load_etod] validates the Items, making
    log calls only; then, if at least one Item is valid, it cancels exactly
    the timers whose key is not the name of a valid Item and keeps the
    others, and with no valid Item it cancels nothing; then it runs the
    cycle on that registry.  It never raises. *)
Theorem load_etod_retires_then_cycles (h : Host) (w : World)
    (Hdel : delete_rule_ok h = true) :
  exists names es,
    result load_rule_with_metadata w = Ret names /\
    Forall (fun e => is_log e = true) es /\
    load_etod h w =
      log_traceback tt (ephem_tod h)
        (mkWorld (items w) (metadata w)
           (if truthy names
            then filter (fun e => value_in (fst e) names) (timers w)
            else timers w)
           (clock w)
           (trace w ++ es ++
              (if truthy names
               then map TimerCancel
                      (filter (fun k => negb (value_in k names)) (keys (timers w)))
               else []))) /\
    result (load_etod h) w = Ret tt.
Proof.
  destruct (load_rule_with_metadata_logs w) as (names & es & E & F).
  exists names, es. split; [unfold result; now rewrite E|]. split; [exact F|].
  assert (L : load_etod h w =
      log_traceback tt (ephem_tod h)
        (mkWorld (items w) (metadata w)
           (if truthy names
            then filter (fun e => value_in (fst e) names) (timers w)
            else timers w)
           (clock w)
           (trace w ++ es ++
              (if truthy names
               then map TimerCancel
                      (filter (fun k => negb (value_in k names)) (keys (timers w)))
               else [])))).
  { unfold load_etod, log_traceback. rewrite Hdel. cbn [negb].
    unfold bind at 1. rewrite E. unfold bind at 1.
    destruct (truthy names).
    - unfold bind at 1, get. cbv beta iota. rewrite cancel_each_run.
      cbn [items metadata timers clock trace]. rewrite retire_keeps.
      now rewrite <- app_assoc.
    - unfold ret. rewrite app_nil_r. reflexivity. }
  split; [exact L|].
  unfold result. rewrite L. unfold log_traceback.
  now destruct (ephem_tod h _) as [[[]|e] w'].
Qed.

(** Reload_ETOD while Night is NULL: both markers are valid, no timer key is
    the name of one of them, and every timer is cancelled before the cycle
    runs. *)
Lemma load_etod_retires_then_cycles_witness :
  exists names es,
    result load_rule_with_metadata Sample.night_null = Ret names /\
    Forall (fun e => is_log e = true) es /\
    load_etod Sample.host Sample.night_null =
      log_traceback tt (ephem_tod Sample.host)
        (mkWorld (items Sample.night_null) (metadata Sample.night_null)
           (if truthy names
            then filter (fun e => value_in (fst e) names) (timers Sample.night_null)
            else timers Sample.night_null)
           (clock Sample.night_null)
           (trace Sample.night_null ++ es ++
              (if truthy names
               then map TimerCancel
                      (filter (fun k => negb (value_in k names))
                         (keys (timers Sample.night_null)))
               else []))) /\
    result (load_etod Sample.host) Sample.night_null = Ret tt.
Proof.
  exact (load_etod_retires_then_cycles Sample.host Sample.night_null eq_refl).
Defined.
